(** * alvinstore: the pricing and validation engine of [pages/Main/index.js]

    A shallow embedding of the quote, slippage, exchange-rate and validation
    functions of [src/pages/Main/index.js], followed by the properties
    established about them.

    Modelling conventions.
    - An [ethers.BigNumber] is an arbitrary-precision signed integer: [Z].
      [add], [sub] and [mul] are exact; [div] raises the library's
      division-by-zero fault on a zero divisor and otherwise truncates
      towards zero ([Z.quot]).
    - A JavaScript value that is either a BigNumber or [undefined] (what the
      data hooks return before their data has arrived) is an [option Z].
      A BigNumber is an object, hence truthy whatever its numeric value:
      [x && ...] tests presence only.
    - [throw] / [try ... catch] is an error monad [Result]. *)

From Stdlib Require Import ZArith Lia List String Bool.
Import ListNotations.

Local Open Scope Z_scope.

(** ** Exceptions and the error monad *)

(** Where a thrown exception originates. *)
Inductive Cause : Type :=
| PlainError        (* [throw Error()] of this module *)
| DivisionByZero    (* BigNumber [div] with a zero divisor *)
| InvalidArgument   (* a BigNumber method handed [undefined] as operand *)
| TypeError         (* a method called on [undefined] *)
| ParseFailure.     (* [parseUnits] rejecting its string *)

Inductive Result (E A : Type) : Type :=
| Ok (a : A)
| Throw (e : E).
Arguments Ok {E A} a.
Arguments Throw {E A} e.

Definition bind {E A B} (m : Result E A) (k : A -> Result E B) : Result E B :=
  match m with
  | Ok a => k a
  | Throw e => Throw e
  end.

(** [try m catch (e) { throw h e }] *)
Definition try_rethrow {E E' A} (m : Result E A) (h : E -> E') : Result E' A :=
  match m with
  | Ok a => Ok a
  | Throw e => Throw (h e)
  end.

Declare Scope js_scope.
Delimit Scope js_scope with js.
Notation "x <- m ;; k" := (bind m (fun x => k))
  (at level 61, m at next level, right associativity) : js_scope.
Notation "'throw' e" := (Throw e) (at level 60) : js_scope.
Local Open Scope js_scope.

Definition M := Result Cause.

(** ** BigNumber values *)

Definition JsBN := option Z.

Module BN.
(** The receiver of a method call: calling a method on [undefined] is a
    TypeError. *)
Definition recv (x : JsBN) : M Z :=
  match x with
  | Some a => Ok a
  | None => throw TypeError
  end.

(** An operand: the library rejects [undefined]. *)
Definition arg (x : JsBN) : M Z :=
  match x with
  | Some a => Ok a
  | None => throw InvalidArgument
  end.

Definition div (a b : Z) : M Z :=
  if b =? 0 then throw DivisionByZero else Ok (Z.quot a b).

Definition Zero : Z := 0.
Definition One : Z := 1.
Definition MaxUint256 : Z := 2 ^ 256 - 1.
End BN.

(** [ethers.utils.parseEther('.01')] *)
Definition MIN_ETH_GAS : Z := 10 ^ 16.

(** ** Tables imported from [utils] *)

(** [TOKEN_SYMBOLS] is declared outside this file; the two entries that are
    read here are taken as parameters. *)
Record TokenSymbols : Type := {
  ETH : string;
  SOCKS : string
}.

(** The properties of [ERROR_CODES] assigned in this file.  The [code] of an
    error records which property was assigned to it. *)
Inductive ErrorKey : Type :=
| INVALID_AMOUNT
| INVALID_TRADE
| INVALID_EXCHANGE
| INSUFFICIENT_ETH_GAS
| INSUFFICIENT_SELECTED_TOKEN_BALANCE
| INSUFFICIENT_ALLOWANCE.

Record JsError : Type := {
  cause : Cause;
  code : option ErrorKey
}.

(** An exception that escapes without this module assigning it a code. *)
Definition uncoded (c : Cause) : JsError := {| cause := c; code := None |}.

(** [error.code = ERROR_CODES.k; throw error] *)
Definition with_code (k : ErrorKey) (c : Cause) : JsError :=
  {| cause := c; code := Some k |}.

(** [const error = Error(); error.code = ERROR_CODES.k] *)
Definition new_error (k : ErrorKey) : JsError :=
  {| cause := PlainError; code := Some k |}.

(** ** Quotes returned by the validators *)

Module BuyQuote.
Record t : Type := {
  inputValue : Z;
  maximumInputValue : Z;
  outputValue : Z;
  error : option JsError
}.
End BuyQuote.

Module SellQuote.
Record t : Type := {
  inputValue : Z;
  outputValue : Z;
  minimumOutputValue : Z;
  error : option JsError
}.
End SellQuote.

(** ** Slippage *)

(** denominated in bips *)
Definition ALLOWED_SLIPPAGE : Z := 200.

Record SlippageBounds : Type := {
  minimum : Z;
  maximum : Z
}.

Definition calculateSlippageBounds (value : Z) : M SlippageBounds :=
  offset <- BN.div (value * ALLOWED_SLIPPAGE) 10000 ;;
  let minimum := value - offset in
  let maximum := value + offset in
  Ok {| minimum := if minimum <? BN.Zero then BN.Zero else minimum;
        maximum := if maximum >? BN.MaxUint256 then BN.MaxUint256 else maximum |}.

(** ** Constant-product quotes *)

(** this mocks the getInputPrice function, and calculates the required output *)
Definition calculateEtherTokenOutputFromInput
    (inputAmount : Z) (inputReserve outputReserve : JsBN) : M Z :=
  let inputAmountWithFee := inputAmount * 997 in
  o <- BN.arg outputReserve ;;
  let numerator := inputAmountWithFee * o in
  i <- BN.recv inputReserve ;;
  let denominator := i * 1000 + inputAmountWithFee in
  BN.div numerator denominator.

(** this mocks the getOutputPrice function, and calculates the required input *)
Definition calculateEtherTokenInputFromOutput
    (outputAmount : Z) (inputReserve outputReserve : JsBN) : M Z :=
  i <- BN.recv inputReserve ;;
  let numerator := i * outputAmount * 1000 in
  o <- BN.recv outputReserve ;;
  let denominator := (o - outputAmount) * 997 in
  q <- BN.div numerator denominator ;;
  Ok (q + BN.One).

(** ** Exchange rate *)

(** get exchange rate for a token/ETH pair.  [Ok None] is the [undefined]
    the function returns when its guard is not met. *)
Definition getExchangeRate (inputValue outputValue : JsBN) (invert : bool)
  : M JsBN :=
  let inputDecimals := 18 in
  let outputDecimals := 18 in
  match inputValue, outputValue with
  | Some i, Some o =>
      (* inputDecimals and outputDecimals are the non-zero number 18 *)
      let factor := 10 ^ 18 in
      if invert then
        q <- BN.div (i * factor) o ;;
        r <- BN.div (q * 10 ^ outputDecimals) (10 ^ inputDecimals) ;;
        Ok (Some r)
      else
        q <- BN.div (o * factor) i ;;
        r <- BN.div (q * 10 ^ inputDecimals) (10 ^ outputDecimals) ;;
        Ok (Some r)
  | _, _ => Ok None
  end.

(** ** Route resolution *)

(** The result guard that follows every quote in [calculateAmount]. *)
Definition guardAmount (amount : Z) : M Z :=
  if (amount <=? BN.Zero) || (amount >=? BN.MaxUint256)
  then throw PlainError
  else Ok amount.

Section Engine.

Variable TOKEN_SYMBOLS : TokenSymbols.

Definition calculateAmount
    (inputTokenSymbol outputTokenSymbol : string)
    (SOCKSAmount : Z)
    (reserveSOCKSETH reserveSOCKSToken
     reserveSelectedTokenETH reserveSelectedTokenToken : JsBN) : M Z :=
  (* eth to token - buy *)
  if (inputTokenSymbol =? TOKEN_SYMBOLS.(ETH))%string
     && (outputTokenSymbol =? TOKEN_SYMBOLS.(SOCKS))%string then
    amount <- calculateEtherTokenInputFromOutput
                SOCKSAmount reserveSOCKSETH reserveSOCKSToken ;;
    guardAmount amount
  (* token to eth - sell *)
  else if (inputTokenSymbol =? TOKEN_SYMBOLS.(SOCKS))%string
          && (outputTokenSymbol =? TOKEN_SYMBOLS.(ETH))%string then
    amount <- calculateEtherTokenOutputFromInput
                SOCKSAmount reserveSOCKSToken reserveSOCKSETH ;;
    guardAmount amount
  else
    (* token to token - buy or sell *)
    let buyingSOCKS := (outputTokenSymbol =? TOKEN_SYMBOLS.(SOCKS))%string in
    if buyingSOCKS then
      (* eth needed to buy x socks *)
      intermediateValue <- calculateEtherTokenInputFromOutput
                             SOCKSAmount reserveSOCKSETH reserveSOCKSToken ;;
      intermediateValue <- guardAmount intermediateValue ;;
      (* tokens needed to buy x eth *)
      amount <- calculateEtherTokenInputFromOutput
                  intermediateValue
                  reserveSelectedTokenToken reserveSelectedTokenETH ;;
      guardAmount amount
    else
      (* eth gained from selling x socks *)
      intermediateValue <- calculateEtherTokenOutputFromInput
                             SOCKSAmount reserveSOCKSToken reserveSOCKSETH ;;
      intermediateValue <- guardAmount intermediateValue ;;
      (* tokens yielded from selling x eth *)
      amount <- calculateEtherTokenOutputFromInput
                  intermediateValue
                  reserveSelectedTokenETH reserveSelectedTokenToken ;;
      guardAmount amount.

(** ** Validation *)

(** The values the data hooks hand to the component; each is a BigNumber once
    loaded and [undefined] before. *)
Record Context : Type := {
  selectedTokenSymbol : string;
  balanceETH : JsBN;
  balanceSOCKS : JsBN;
  balanceSelectedToken : JsBN;
  allowanceSOCKS : JsBN;
  allowanceSelectedToken : JsBN;
  reserveSOCKSETH : JsBN;
  reserveSOCKSToken : JsBN;
  reserveSelectedTokenETH : JsBN;
  reserveSelectedTokenToken : JsBN;
  reserveDAIETH : JsBN;
  reserveDAIToken : JsBN
}.

(** [ethers.utils.parseUnits], a function of the ethers library. *)
Variable parseUnits : string -> Z -> M Z.

Variable ctx : Context.

(** [if (!errorAccumulator) { errorAccumulator = error }] *)
Definition accumulate (errorAccumulator : option JsError) (error : JsError)
  : option JsError :=
  match errorAccumulator with
  | None => Some error
  | Some _ => errorAccumulator
  end.

(** [x && x.lt(y)] *)
Definition present_and_lt (x : JsBN) (y : Z) : bool :=
  match x with
  | Some b => b <? y
  | None => false
  end.

(** [x.lt(y)] on a value that may be [undefined] *)
Definition deref_lt (x : JsBN) (y : Z) : Result JsError bool :=
  try_rethrow (b <- BN.recv x ;; Ok (b <? y)) uncoded.

(* buy functionality *)
Definition validateBuy (numberOfSOCKS : string) : Result JsError BuyQuote.t :=
  (* validate passed amount *)
  parsedValue <- try_rethrow (parseUnits numberOfSOCKS 18)
                             (with_code INVALID_AMOUNT) ;;
  requiredValueInSelectedToken <-
    try_rethrow
      (calculateAmount
         ctx.(selectedTokenSymbol) TOKEN_SYMBOLS.(SOCKS) parsedValue
         ctx.(reserveSOCKSETH) ctx.(reserveSOCKSToken)
         ctx.(reserveSelectedTokenETH) ctx.(reserveSelectedTokenToken))
      (with_code INVALID_TRADE) ;;
  (* get max slippage amount *)
  bounds <- try_rethrow (calculateSlippageBounds requiredValueInSelectedToken)
                        uncoded ;;
  let maximum := bounds.(maximum) in
  (* the following are 'non-breaking' errors that will still return the data *)
  let errorAccumulator := None in
  (* validate minimum ether balance *)
  let errorAccumulator :=
    if present_and_lt ctx.(balanceETH) MIN_ETH_GAS
    then accumulate errorAccumulator (new_error INSUFFICIENT_ETH_GAS)
    else errorAccumulator in
  (* validate minimum selected token balance *)
  let errorAccumulator :=
    if present_and_lt ctx.(balanceSelectedToken) maximum
    then accumulate errorAccumulator
                    (new_error INSUFFICIENT_SELECTED_TOKEN_BALANCE)
    else errorAccumulator in
  (* validate allowance *)
  let errorAccumulator :=
    if negb (ctx.(selectedTokenSymbol) =? "ETH")%string then
      if present_and_lt ctx.(allowanceSelectedToken) maximum
      then accumulate errorAccumulator (new_error INSUFFICIENT_ALLOWANCE)
      else errorAccumulator
    else errorAccumulator in
  Ok {| BuyQuote.inputValue := requiredValueInSelectedToken;
        BuyQuote.maximumInputValue := maximum;
        BuyQuote.outputValue := parsedValue;
        BuyQuote.error := errorAccumulator |}.

(* sell functionality *)
Definition validateSell (numberOfSOCKS : string) : Result JsError SellQuote.t :=
  (* validate passed amount *)
  parsedValue <- try_rethrow (parseUnits numberOfSOCKS 18)
                             (with_code INVALID_AMOUNT) ;;
  (* how much ETH or tokens the sale will result in *)
  requiredValueInSelectedToken <-
    try_rethrow
      (calculateAmount
         TOKEN_SYMBOLS.(SOCKS) ctx.(selectedTokenSymbol) parsedValue
         ctx.(reserveSOCKSETH) ctx.(reserveSOCKSToken)
         ctx.(reserveSelectedTokenETH) ctx.(reserveSelectedTokenToken))
      (with_code INVALID_EXCHANGE) ;;
  (* slippage-ized *)
  bounds <- try_rethrow (calculateSlippageBounds requiredValueInSelectedToken)
                        uncoded ;;
  let minimum := bounds.(minimum) in
  (* the following are 'non-breaking' errors that will still return the data *)
  let errorAccumulator := None in
  (* validate minimum ether balance *)
  low <- deref_lt ctx.(balanceETH) MIN_ETH_GAS ;;
  let errorAccumulator :=
    if low then accumulate errorAccumulator (new_error INSUFFICIENT_ETH_GAS)
    else errorAccumulator in
  (* validate minimum socks balance *)
  low <- deref_lt ctx.(balanceSOCKS) parsedValue ;;
  let errorAccumulator :=
    if low then accumulate errorAccumulator
                           (new_error INSUFFICIENT_SELECTED_TOKEN_BALANCE)
    else errorAccumulator in
  (* validate allowance *)
  low <- deref_lt ctx.(allowanceSOCKS) parsedValue ;;
  let errorAccumulator :=
    if low then accumulate errorAccumulator (new_error INSUFFICIENT_ALLOWANCE)
    else errorAccumulator in
  Ok {| SellQuote.inputValue := parsedValue;
        SellQuote.outputValue := requiredValueInSelectedToken;
        SellQuote.minimumOutputValue := minimum;
        SellQuote.error := errorAccumulator |}.

(** ** The exchange-rate effect *)

Record RateState : Type := {
  USDExchangeRateETH : JsBN;
  USDExchangeRateSelectedToken : JsBN
}.

(** The body of the [useEffect] that refreshes the USD rates, as a
    transformer of the two state cells. *)
Definition exchangeRateEffect (st : RateState) : RateState :=
  let attempt : M RateState :=
    exchangeRateDAI <- getExchangeRate ctx.(reserveDAIETH) ctx.(reserveDAIToken)
                                       false ;;
    if (ctx.(selectedTokenSymbol) =? TOKEN_SYMBOLS.(ETH))%string then
      Ok {| USDExchangeRateETH := exchangeRateDAI;
            USDExchangeRateSelectedToken := st.(USDExchangeRateSelectedToken) |}
    else
      exchangeRateSelectedToken <-
        getExchangeRate ctx.(reserveSelectedTokenETH)
                        ctx.(reserveSelectedTokenToken) false ;;
      match exchangeRateDAI, exchangeRateSelectedToken with
      | Some d, Some s =>
          r <- BN.div (d * 10 ^ 18) s ;;
          Ok {| USDExchangeRateETH := st.(USDExchangeRateETH);
                USDExchangeRateSelectedToken := Some r |}
      | _, _ => Ok st
      end
  in
  match attempt with
  | Ok st' => st'
  | Throw _ => {| USDExchangeRateETH := None;
                  USDExchangeRateSelectedToken := None |}
  end.

End Engine.

(** ** Specification-side vocabulary *)

(** [clamp(value, lo, hi)] as the specification words the slippage band. *)
Definition spec_clamp (value lo hi : Z) : Z := Z.max lo (Z.min value hi).

(** The first check, in the order listed, whose condition fails: the
    specification's reading of the surfaced error. *)
Definition firstFailed (checks : list (ErrorKey * bool)) : option JsError :=
  option_map (fun c => new_error (fst c)) (find snd checks).

(** The error kinds of the specification's taxonomy. *)
Inductive ErrorKind : Type :=
| InvalidAmount
| InvalidTrade
| InsufficientEthGas
| InsufficientSelectedTokenBalance
| InsufficientAllowance
| Underflow
| DivideByZero.

(** Modelled from the spec: the table [ERROR_CODES] of [utils], which is not
    among the sources.  Each property names the kind of the taxonomy it
    stands for; a property the taxonomy has no kind for reads as
    [undefined]. *)
Definition spec_ERROR_CODES (k : ErrorKey) : option ErrorKind :=
  match k with
  | INVALID_AMOUNT => Some InvalidAmount
  | INVALID_TRADE => Some InvalidTrade
  | INVALID_EXCHANGE => None
  | INSUFFICIENT_ETH_GAS => Some InsufficientEthGas
  | INSUFFICIENT_SELECTED_TOKEN_BALANCE => Some InsufficientSelectedTokenBalance
  | INSUFFICIENT_ALLOWANCE => Some InsufficientAllowance
  end.

(** ** Concrete instances, for running the engine *)

(** Each symbol is its own name. *)
Definition symbols : TokenSymbols := {| ETH := "ETH"; SOCKS := "SOCKS" |}.

Fixpoint digitsValue (s : string) (acc : Z) : option Z :=
  match s with
  | EmptyString => Some acc
  | String c rest =>
      let d := Z.of_N (Ascii.N_of_ascii c) - 48 in
      if (0 <=? d) && (d <=? 9) then digitsValue rest (acc * 10 + d) else None
  end.

(** A stand-in for the library parser that reads whole-number strings only:
    a non-empty run of decimal digits is scaled by [10 ^ decimals], and this
    stand-in rejects everything else. *)
Definition parseWholeUnits (value : string) (decimals : Z) : M Z :=
  match value with
  | EmptyString => throw ParseFailure
  | _ => match digitsValue value 0 with
         | Some n => Ok (n * 10 ^ decimals)
         | None => throw ParseFailure
         end
  end.

(** ETH selected against a pool of 50 SOCKS; the account's two ETH-side
    balances and the ETH reserves of the SOCKS and DAI pools are left open. *)
Definition poolContext
    (gasBalance payingBalance socksPoolETH daiPoolETH : JsBN) : Context := {|
  selectedTokenSymbol := "ETH";
  balanceETH := gasBalance;
  balanceSOCKS := Some (10 * 10 ^ 18);
  balanceSelectedToken := payingBalance;
  allowanceSOCKS := Some (10 * 10 ^ 18);
  allowanceSelectedToken := None;
  reserveSOCKSETH := socksPoolETH;
  reserveSOCKSToken := Some (50 * 10 ^ 18);
  reserveSelectedTokenETH := None;
  reserveSelectedTokenToken := None;
  reserveDAIETH := daiPoolETH;
  reserveDAIToken := Some (20000 * 10 ^ 18)
|}.

(** 1000 ETH in the SOCKS pool, 100 ETH in the DAI pool, 50 ETH in hand. *)
Definition sampleContext : Context :=
  poolContext (Some (50 * 10 ^ 18)) (Some (50 * 10 ^ 18))
              (Some (1000 * 10 ^ 18)) (Some (100 * 10 ^ 18)).

(** The conditions the buy validator tests, in its order. *)
Definition buyChecks (ctx : Context) (maximum : Z) : list (ErrorKey * bool) :=
  [ (INSUFFICIENT_ETH_GAS, present_and_lt ctx.(balanceETH) MIN_ETH_GAS);
    (INSUFFICIENT_SELECTED_TOKEN_BALANCE,
     present_and_lt ctx.(balanceSelectedToken) maximum);
    (INSUFFICIENT_ALLOWANCE,
     negb (ctx.(selectedTokenSymbol) =? "ETH")%string
     && present_and_lt ctx.(allowanceSelectedToken) maximum) ].

(** The conditions the sell validator tests, in its order, on loaded data. *)
Definition sellChecks (gasBalance socksBalance socksAllowance parsedValue : Z)
  : list (ErrorKey * bool) :=
  [ (INSUFFICIENT_ETH_GAS, gasBalance <? MIN_ETH_GAS);
    (INSUFFICIENT_SELECTED_TOKEN_BALANCE, socksBalance <? parsedValue);
    (INSUFFICIENT_ALLOWANCE, socksAllowance <? parsedValue) ].

(** DAI selected: the token pool and the ETH reserve of the DAI pool are
    left open; the account is as in [sampleContext]. *)
Definition daiContext (tokenPoolETH tokenPoolToken daiPoolETH : JsBN)
  : Context := {|
  selectedTokenSymbol := "DAI";
  balanceETH := Some (50 * 10 ^ 18);
  balanceSOCKS := Some (10 * 10 ^ 18);
  balanceSelectedToken := Some (50000 * 10 ^ 18);
  allowanceSOCKS := Some (10 * 10 ^ 18);
  allowanceSelectedToken := Some (50000 * 10 ^ 18);
  reserveSOCKSETH := Some (1000 * 10 ^ 18);
  reserveSOCKSToken := Some (50 * 10 ^ 18);
  reserveSelectedTokenETH := tokenPoolETH;
  reserveSelectedTokenToken := tokenPoolToken;
  reserveDAIETH := daiPoolETH;
  reserveDAIToken := Some (20000 * 10 ^ 18)
|}.

(** The quotes for one SOCKS in [sampleContext]. *)
Definition sampleBuyQuote : BuyQuote.t := {|
  BuyQuote.inputValue := 20469571981249872066;
  BuyQuote.maximumInputValue := 20878963420874869507;
  BuyQuote.outputValue := 10 ^ 18;
  BuyQuote.error := None
|}.

Definition sampleSellQuote : SellQuote.t := {|
  SellQuote.inputValue := 10 ^ 18;
  SellQuote.outputValue := 19550169617820656117;
  SellQuote.minimumOutputValue := 19159166225464242995;
  SellQuote.error := None
|}.

(** Rates as the effect leaves them once the ETH rate is known. *)
Definition sampleRates : RateState := {|
  USDExchangeRateETH := Some (200 * 10 ^ 18);
  USDExchangeRateSelectedToken := None
|}.

(** ** Gas margin *)

(** denominated in bips *)
Definition GAS_MARGIN : Z := 1000.

Definition calculateGasMargin (value margin : Z) : M Z :=
  offset <- BN.div (value * margin) 10000 ;;
  Ok (value + offset).

(** ** Readiness *)

(** Truthiness of a value that is a BigNumber or [undefined]. *)
Definition truthy (x : JsBN) : bool :=
  match x with
  | Some _ => true
  | None => false
  end.

(** The [ready] flag of the component.  [accountIsNull] is the outcome of
    [account === null]; a string is truthy when it is not empty. *)
Definition ready (accountIsNull : bool) (ctx : Context) (rates : RateState)
  : bool :=
  (accountIsNull || truthy ctx.(allowanceSOCKS))
  && ((ctx.(selectedTokenSymbol) =? "ETH")%string
      || accountIsNull || truthy ctx.(allowanceSelectedToken))
  && (accountIsNull || truthy ctx.(balanceETH))
  && (accountIsNull || truthy ctx.(balanceSOCKS))
  && (accountIsNull || truthy ctx.(balanceSelectedToken))
  && truthy ctx.(reserveSOCKSETH)
  && truthy ctx.(reserveSOCKSToken)
  && ((ctx.(selectedTokenSymbol) =? "ETH")%string
      || truthy ctx.(reserveSelectedTokenETH))
  && ((ctx.(selectedTokenSymbol) =? "ETH")%string
      || truthy ctx.(reserveSelectedTokenToken))
  && negb (ctx.(selectedTokenSymbol) =? "")%string
  && (truthy rates.(USDExchangeRateETH)
      || truthy rates.(USDExchangeRateSelectedToken)).

(** * Properties *)

(** ** Arithmetic of BigNumber division *)

Lemma div_nonzero (a b : Z) : b <> 0 -> BN.div a b = Ok (Z.quot a b).
Proof.
  intros Hb. unfold BN.div.
  destruct (Z.eqb_spec b 0) as [E | _]; [contradiction | reflexivity].
Qed.

Lemma div_zero (a : Z) : BN.div a 0 = Throw DivisionByZero.
Proof. reflexivity. Qed.

(** On a non-negative dividend and a positive divisor, truncation towards
    zero is the floor. *)
Lemma div_floor (a b : Z) : 0 <= a -> 0 < b -> BN.div a b = Ok (a / b).
Proof.
  intros Ha Hb. rewrite div_nonzero by lia.
  now rewrite Z.quot_div_nonneg.
Qed.

(** ** The two quotes on present reserves *)

Lemma forward_quote_floor (a ri ro : Z) :
  0 <= a -> 0 < ri -> 0 <= ro ->
  calculateEtherTokenOutputFromInput a (Some ri) (Some ro)
  = Ok (a * 997 * ro / (ri * 1000 + a * 997)).
Proof.
  intros Ha Hri Hro. unfold calculateEtherTokenOutputFromInput. cbn [BN.arg BN.recv bind].
  apply div_floor; nia.
Qed.

Lemma reverse_quote_floor (o ri ro : Z) :
  0 <= o < ro -> 0 <= ri ->
  calculateEtherTokenInputFromOutput o (Some ri) (Some ro)
  = Ok (ri * o * 1000 / ((ro - o) * 997) + 1).
Proof.
  intros Ho Hri. unfold calculateEtherTokenInputFromOutput. cbn [BN.recv bind].
  rewrite div_floor by nia. reflexivity.
Qed.

(** C1: on [0 <= outputAmount < outputReserve] and [0 <= inputReserve] the
    reverse quote returns
    [floor(inputReserve * outputAmount * 10000
           / ((outputReserve - outputAmount) * (10000 - 30))) + 1];
    the [+ 1] is added whatever the remainder of the division. *)
Theorem C1_reverse_quote_formula (outputAmount inputReserve outputReserve : Z) :
  0 <= outputAmount < outputReserve ->
  0 <= inputReserve ->
  calculateEtherTokenInputFromOutput
    outputAmount (Some inputReserve) (Some outputReserve)
  = Ok (inputReserve * outputAmount * 10000
        / ((outputReserve - outputAmount) * (10000 - 30)) + 1).
Proof.
  intros Ho Hri. rewrite reverse_quote_floor by assumption.
  do 2 f_equal.
  replace (inputReserve * outputAmount * 10000)
    with (inputReserve * outputAmount * 1000 * 10) by ring.
  replace ((outputReserve - outputAmount) * (10000 - 30))
    with ((outputReserve - outputAmount) * 997 * 10) by ring.
  rewrite Z.div_mul_cancel_r by lia. reflexivity.
Qed.

Lemma C1_reverse_quote_formula_witness :
  calculateEtherTokenInputFromOutput 997 (Some 3) (Some 1997)
  = Ok (3 * 997 * 10000 / ((1997 - 997) * (10000 - 30)) + 1).
Proof. apply C1_reverse_quote_formula; lia. Defined.

(** The division of the witness above is exact, and the result is still one
    more than the quotient. *)
Example reverse_quote_exact_division :
  (3 * 997 * 1000) mod ((1997 - 997) * 997) = 0 /\
  calculateEtherTokenInputFromOutput 997 (Some 3) (Some 1997) = Ok 4.
Proof. split; reflexivity. Qed.

(** ** Monotonicity and round trip *)

(** The floor of [A * ro / (R + A)] grows with [A]. *)
Lemma forward_ratio_mono (A B R ro : Z) :
  0 <= A <= B -> 0 < R -> 0 <= ro ->
  A * ro / (R + A) <= B * ro / (R + B).
Proof.
  intros HAB HR Hro.
  apply Z.div_le_lower_bound; [lia |].
  set (q := A * ro / (R + A)).
  assert (Hq : (R + A) * q <= A * ro)
    by (apply Z.mul_div_le; lia).
  assert (Hq0 : 0 <= q) by (apply Z.div_pos; nia).
  (* multiply through by the positive [R + A] *)
  apply Z.mul_le_mono_pos_l with (p := R + A); [lia |].
  transitivity (A * ro * (R + B)).
  - replace ((R + A) * ((R + B) * q)) with ((R + A) * q * (R + B)) by ring.
    apply Z.mul_le_mono_nonneg_r; lia.
  - replace ((R + A) * (B * ro)) with (A * ro * (R + B) + ro * R * (B - A)) by ring.
    assert (0 <= ro * R * (B - A))
      by (repeat apply Z.mul_nonneg_nonneg; lia).
    lia.
Qed.

(** C8: for fixed positive reserves the forward quote is monotonically
    non-decreasing in the input amount: both quotes are produced and the one
    for the smaller amount is at most the one for the larger. *)
Theorem C8_forward_quote_monotone (a b r_in r_out : Z) :
  0 < r_in -> 0 < r_out -> 0 <= a -> a <= b ->
  exists qa qb,
    calculateEtherTokenOutputFromInput a (Some r_in) (Some r_out) = Ok qa /\
    calculateEtherTokenOutputFromInput b (Some r_in) (Some r_out) = Ok qb /\
    qa <= qb.
Proof.
  intros Hri Hro Ha Hab.
  do 2 eexists. rewrite !forward_quote_floor by lia.
  split; [reflexivity | split; [reflexivity |]].
  apply forward_ratio_mono; lia.
Qed.

Lemma C8_forward_quote_monotone_witness :
  exists qa qb,
    calculateEtherTokenOutputFromInput 10 (Some 1000) (Some 500) = Ok qa /\
    calculateEtherTokenOutputFromInput 25 (Some 1000) (Some 500) = Ok qb /\
    qa <= qb.
Proof. apply C8_forward_quote_monotone; lia. Defined.

(** The forward quote stays strictly below the output reserve. *)
Lemma forward_quote_below_reserve (a ri ro : Z) :
  0 <= a -> 0 < ri -> 0 < ro ->
  0 <= a * 997 * ro / (ri * 1000 + a * 997) < ro.
Proof.
  intros Ha Hri Hro. split.
  - apply Z.div_pos; nia.
  - apply Z.div_lt_upper_bound; nia.
Qed.

(** C2 as stated fails: with reserves [(1000, 1)] an input of [5] is quoted
    an output of [0], and the reverse quote of [0] is [1 < 5]. *)
Lemma C2_round_trip_counterexample :
  0 < 1000 /\ 0 < 1 /\ 0 < 5 < 1000 /\
  calculateEtherTokenOutputFromInput 5 (Some 1000) (Some 1) = Ok 0 /\
  calculateEtherTokenInputFromOutput 0 (Some 1000) (Some 1) = Ok 1 /\
  ~ (1 >= 5).
Proof.
  repeat (split; [lia |]).
  repeat split; try reflexivity. lia.
Qed.

(** C2 (amended): for positive reserves and a positive input below the input
    reserve, the forward quote followed by the reverse quote lands between
    [1] and [inputAmount + 1]; it reaches [inputAmount] or more whenever the
    forward quote's division left no remainder. *)
Theorem C2_round_trip_bounds (inputAmount r_in r_out : Z) :
  0 < r_in -> 0 < r_out -> 0 < inputAmount < r_in ->
  exists out back,
    calculateEtherTokenOutputFromInput inputAmount (Some r_in) (Some r_out)
      = Ok out /\
    calculateEtherTokenInputFromOutput out (Some r_in) (Some r_out) = Ok back /\
    1 <= back <= inputAmount + 1 /\
    ((inputAmount * 997 * r_out) mod (r_in * 1000 + inputAmount * 997) = 0 ->
     back = inputAmount + 1).
Proof.
  intros Hri Hro Ha.
  set (D := r_in * 1000 + inputAmount * 997).
  set (out := inputAmount * 997 * r_out / D).
  assert (HD : 0 < D) by (unfold D; lia).
  assert (Hout : 0 <= out < r_out)
    by (apply forward_quote_below_reserve; lia).
  assert (Hle : D * out <= inputAmount * 997 * r_out)
    by (apply Z.mul_div_le; lia).
  exists out, (r_in * out * 1000 / ((r_out - out) * 997) + 1).
  split; [apply forward_quote_floor; lia |].
  split; [apply reverse_quote_floor; lia |].
  assert (Hden : 0 < (r_out - out) * 997) by lia.
  (* the exact pre-image of [out] is at most [inputAmount] *)
  assert (Hnum : r_in * out * 1000 <= inputAmount * ((r_out - out) * 997))
    by (unfold D in Hle; lia).
  split; [split |].
  - assert (0 <= r_in * out * 1000 / ((r_out - out) * 997))
      by (apply Z.div_pos; nia).
    lia.
  - assert (r_in * out * 1000 / ((r_out - out) * 997) <= inputAmount).
    { apply Z.div_le_upper_bound; [lia |]. lia. }
    lia.
  - intros Hexact.
    assert (Heq : inputAmount * 997 * r_out = D * out).
    { unfold out. apply Z.div_exact; [lia | exact Hexact]. }
    assert (Hnum' : r_in * out * 1000 = inputAmount * ((r_out - out) * 997))
      by (unfold D in Heq; lia).
    rewrite Hnum'. rewrite Z.div_mul by lia. reflexivity.
Qed.

Lemma C2_round_trip_bounds_witness :
  exists out back,
    calculateEtherTokenOutputFromInput 1 (Some 3) (Some 3997) = Ok out /\
    calculateEtherTokenInputFromOutput out (Some 3) (Some 3997) = Ok back /\
    1 <= back <= 1 + 1 /\
    ((1 * 997 * 3997) mod (3 * 1000 + 1 * 997) = 0 -> back = 1 + 1).
Proof. apply C2_round_trip_bounds; lia. Defined.

(** The rounding is conservative in the other direction: paying the reverse
    quote always buys at least the requested output. *)
Lemma reverse_then_forward_delivers (outputAmount r_in r_out : Z) :
  0 < r_in -> 0 <= outputAmount < r_out ->
  exists pay got,
    calculateEtherTokenInputFromOutput outputAmount (Some r_in) (Some r_out)
      = Ok pay /\
    calculateEtherTokenOutputFromInput pay (Some r_in) (Some r_out)
      = Ok got /\
    outputAmount <= got.
Proof.
  intros Hri Ho.
  set (den := (r_out - outputAmount) * 997).
  set (q := r_in * outputAmount * 1000 / den).
  assert (Hden : 0 < den) by (unfold den; lia).
  assert (Hq0 : 0 <= q) by (apply Z.div_pos; nia).
  assert (Hq : r_in * outputAmount * 1000 < den * (q + 1)).
  { pose proof (Z.mul_succ_div_gt (r_in * outputAmount * 1000) den Hden).
    unfold q. lia. }
  exists (q + 1), ((q + 1) * 997 * r_out / (r_in * 1000 + (q + 1) * 997)).
  split; [apply reverse_quote_floor; lia |].
  split; [apply forward_quote_floor; lia |].
  apply Z.div_le_lower_bound; [lia |].
  unfold den in Hq. nia.
Qed.

(** ** Slippage band *)

Lemma slippage_offset (value : Z) :
  BN.div (value * ALLOWED_SLIPPAGE) 10000
  = Ok (Z.quot (value * ALLOWED_SLIPPAGE) 10000).
Proof. apply div_nonzero. lia. Qed.

(** C7: the slippage bounder returns a band on every input; on a valid
    amount [0 <= x <= MaxUint256] its endpoints are
    [clamp(x - floor(x*200/10000), 0, MaxUint256)] and
    [clamp(x + floor(x*200/10000), 0, MaxUint256)], and they bracket [x]. *)
Theorem C7_slippage_band (x : Z) :
  exists band,
    calculateSlippageBounds x = Ok band /\
    (0 <= x <= BN.MaxUint256 ->
     minimum band = spec_clamp (x - x * 200 / 10000) 0 BN.MaxUint256 /\
     maximum band = spec_clamp (x + x * 200 / 10000) 0 BN.MaxUint256 /\
     minimum band <= x <= maximum band).
Proof.
  unfold calculateSlippageBounds. rewrite slippage_offset. cbn [bind].
  eexists. split; [reflexivity |].
  intros Hx. cbn [minimum maximum].
  unfold ALLOWED_SLIPPAGE, BN.Zero, spec_clamp in *.
  rewrite Z.quot_div_nonneg by lia.
  assert (Hoff : 0 <= x * 200 / 10000 <= x).
  { split; [apply Z.div_pos; lia |].
    apply Z.div_le_upper_bound; lia. }
  destruct (Z.ltb_spec (x - x * 200 / 10000) 0);
    destruct (Z.gtb_spec (x + x * 200 / 10000) BN.MaxUint256); lia.
Qed.

Lemma C7_slippage_band_witness :
  0 <= 1000 <= BN.MaxUint256 /\
  exists band,
    calculateSlippageBounds 1000 = Ok band /\
    minimum band = spec_clamp (1000 - 1000 * 200 / 10000) 0 BN.MaxUint256 /\
    maximum band = spec_clamp (1000 + 1000 * 200 / 10000) 0 BN.MaxUint256 /\
    minimum band <= 1000 <= maximum band.
Proof.
  assert (H : 0 <= 1000 <= BN.MaxUint256) by (unfold BN.MaxUint256; lia).
  split; [exact H |].
  destruct (C7_slippage_band 1000) as [band [Hrun Hband]].
  exists band. split; [exact Hrun | exact (Hband H)].
Defined.

(** The upper endpoint saturates at the ceiling. *)
Example slippage_saturates :
  calculateSlippageBounds BN.MaxUint256
  = Ok {| minimum := BN.MaxUint256 - BN.MaxUint256 / 50;
          maximum := BN.MaxUint256 |}.
Proof. vm_compute. reflexivity. Qed.

(** ** Route resolution and validation *)

Section ValidatorFacts.

Variable TOKEN_SYMBOLS : TokenSymbols.
Variable parseUnits : string -> Z -> M Z.

Lemma guardAmount_ok (amount : Z) :
  0 < amount < BN.MaxUint256 -> guardAmount amount = Ok amount.
Proof.
  intros H. unfold guardAmount, BN.Zero.
  destruct (Z.leb_spec amount 0); [lia |].
  destruct (Z.geb_spec amount BN.MaxUint256); [lia | reflexivity].
Qed.

Lemma guardAmount_nonpositive (amount : Z) :
  amount <= 0 -> guardAmount amount = Throw PlainError.
Proof.
  intros H. unfold guardAmount, BN.Zero.
  destruct (Z.leb_spec amount 0); [reflexivity | lia].
Qed.

(** Every buy starts with the reverse quote against the SOCKS pool. *)
Lemma calculateAmount_buy_first_hop (sel : string) (v : Z) (r1 r2 r3 r4 : JsBN) :
  calculateAmount TOKEN_SYMBOLS sel TOKEN_SYMBOLS.(SOCKS) v r1 r2 r3 r4
  = (hop <- (amount <- calculateEtherTokenInputFromOutput v r1 r2 ;;
             guardAmount amount) ;;
     if (sel =? TOKEN_SYMBOLS.(ETH))%string then Ok hop
     else amount <- calculateEtherTokenInputFromOutput hop r4 r3 ;;
          guardAmount amount).
Proof.
  unfold calculateAmount. rewrite String.eqb_refl, Bool.andb_true_r.
  destruct (String.eqb_spec sel TOKEN_SYMBOLS.(ETH)) as [E | NE].
  - destruct (calculateEtherTokenInputFromOutput v r1 r2) as [a | e]; cbn;
      [destruct (guardAmount a) |]; reflexivity.
  - destruct (String.eqb_spec sel TOKEN_SYMBOLS.(SOCKS)) as [E' | NE'];
      cbn [andb].
    + destruct (String.eqb_spec TOKEN_SYMBOLS.(SOCKS) TOKEN_SYMBOLS.(ETH))
        as [E2 | NE2]; [congruence |].
      destruct (calculateEtherTokenInputFromOutput v r1 r2) as [a | e]; cbn;
        [destruct (guardAmount a) |]; reflexivity.
    + destruct (calculateEtherTokenInputFromOutput v r1 r2) as [a | e]; cbn;
        [destruct (guardAmount a) |]; reflexivity.
Qed.

(** C9: on [0 <= outputAmount < outputReserve] and [0 <= inputReserve] the
    reverse quote returns a value of at least [1], so the non-positive test
    of the direct buy path is never met and only the ceiling test of its
    guard can fire. *)
Theorem C9_reverse_quote_positive
    (outputAmount inputReserve outputReserve : Z) (r3 r4 : JsBN) :
  0 <= outputAmount < outputReserve ->
  0 <= inputReserve ->
  exists amount,
    calculateEtherTokenInputFromOutput
      outputAmount (Some inputReserve) (Some outputReserve) = Ok amount /\
    1 <= amount /\
    (amount <=? BN.Zero) = false /\
    calculateAmount TOKEN_SYMBOLS TOKEN_SYMBOLS.(ETH) TOKEN_SYMBOLS.(SOCKS)
      outputAmount (Some inputReserve) (Some outputReserve) r3 r4
    = if amount >=? BN.MaxUint256 then Throw PlainError else Ok amount.
Proof.
  intros Ho Hri.
  assert (Hq : 0 <= inputReserve * outputAmount * 1000
                    / ((outputReserve - outputAmount) * 997))
    by (apply Z.div_pos; nia).
  eexists. split; [apply reverse_quote_floor; assumption |].
  split; [lia |].
  assert (Hpos : (inputReserve * outputAmount * 1000
                  / ((outputReserve - outputAmount) * 997) + 1 <=? BN.Zero)
                 = false)
    by (apply Z.leb_gt; unfold BN.Zero; lia).
  split; [exact Hpos |].
  unfold calculateAmount. rewrite !String.eqb_refl. cbn [andb].
  rewrite reverse_quote_floor by assumption. cbn [bind].
  unfold guardAmount. rewrite Hpos. reflexivity.
Qed.

(** *** Quotes at and beyond the output reserve *)

Lemma reverse_quote_at_reserve (ri ro : Z) :
  calculateEtherTokenInputFromOutput ro (Some ri) (Some ro)
  = Throw DivisionByZero.
Proof.
  unfold calculateEtherTokenInputFromOutput. cbn [BN.recv bind].
  replace ((ro - ro) * 997) with 0 by ring. reflexivity.
Qed.

Lemma reverse_quote_beyond_reserve (v ri ro : Z) :
  0 < ri -> 0 <= ro < v ->
  exists q,
    calculateEtherTokenInputFromOutput v (Some ri) (Some ro) = Ok q /\ q <= 0.
Proof.
  intros Hri Hro. unfold calculateEtherTokenInputFromOutput.
  cbn [BN.recv bind]. rewrite div_nonzero by lia. cbn [bind].
  eexists. split; [reflexivity |].
  (* the divisor is negative: the truncated quotient is at most -1 *)
  replace ((ro - v) * 997) with (- ((v - ro) * 997)) by ring.
  rewrite Z.quot_opp_r by lia.
  rewrite Z.quot_div_nonneg by nia.
  assert (1 <= ri * v * 1000 / ((v - ro) * 997))
    by (apply Z.div_le_lower_bound; nia).
  unfold BN.One. lia.
Qed.

(** *** What the two [catch] blocks do *)

Lemma validateBuy_parse_failure (ctx : Context) (s : string) (c : Cause) :
  parseUnits s 18 = Throw c ->
  validateBuy TOKEN_SYMBOLS parseUnits ctx s
  = Throw (with_code INVALID_AMOUNT c).
Proof. intros Hp. unfold validateBuy. rewrite Hp. reflexivity. Qed.

Lemma validateBuy_route_failure (ctx : Context) (s : string) (v : Z) (c : Cause) :
  parseUnits s 18 = Ok v ->
  calculateAmount TOKEN_SYMBOLS
    ctx.(selectedTokenSymbol) TOKEN_SYMBOLS.(SOCKS) v
    ctx.(reserveSOCKSETH) ctx.(reserveSOCKSToken)
    ctx.(reserveSelectedTokenETH) ctx.(reserveSelectedTokenToken) = Throw c ->
  validateBuy TOKEN_SYMBOLS parseUnits ctx s
  = Throw (with_code INVALID_TRADE c).
Proof.
  intros Hp Hr. unfold validateBuy. rewrite Hp. cbn [try_rethrow bind].
  rewrite Hr. reflexivity.
Qed.

Lemma validateSell_route_failure (ctx : Context) (s : string) (v : Z) (c : Cause) :
  parseUnits s 18 = Ok v ->
  calculateAmount TOKEN_SYMBOLS
    TOKEN_SYMBOLS.(SOCKS) ctx.(selectedTokenSymbol) v
    ctx.(reserveSOCKSETH) ctx.(reserveSOCKSToken)
    ctx.(reserveSelectedTokenETH) ctx.(reserveSelectedTokenToken) = Throw c ->
  validateSell TOKEN_SYMBOLS parseUnits ctx s
  = Throw (with_code INVALID_EXCHANGE c).
Proof.
  intros Hp Hr. unfold validateSell. rewrite Hp. cbn [try_rethrow bind].
  rewrite Hr. reflexivity.
Qed.

(** C3 (amended): a buy whose requested output is at or above the SOCKS
    reserve, against a positive ETH reserve, fails with the code
    [INVALID_TRADE].  The failure comes out of evaluating the formula: at
    [outputAmount = outputReserve] the division faults on a zero divisor;
    beyond it the formula yields a non-positive amount, which the result
    guard rejects. *)
Theorem C3_buy_at_or_beyond_reserve
    (ctx : Context) (s : string) (outputAmount inputReserve outputReserve : Z) :
  parseUnits s 18 = Ok outputAmount ->
  ctx.(reserveSOCKSETH) = Some inputReserve ->
  ctx.(reserveSOCKSToken) = Some outputReserve ->
  0 < inputReserve ->
  0 <= outputReserve <= outputAmount ->
  (outputAmount = outputReserve ->
   calculateEtherTokenInputFromOutput
     outputAmount (Some inputReserve) (Some outputReserve)
   = Throw DivisionByZero) /\
  (outputReserve < outputAmount ->
   exists q,
     calculateEtherTokenInputFromOutput
       outputAmount (Some inputReserve) (Some outputReserve) = Ok q /\
     q <= 0 /\ guardAmount q = Throw PlainError) /\
  validateBuy TOKEN_SYMBOLS parseUnits ctx s
  = Throw {| cause := if outputAmount =? outputReserve
                      then DivisionByZero else PlainError;
             code := Some INVALID_TRADE |}.
Proof.
  intros Hp HrE HrT Hri Hro.
  split; [intros ->; apply reverse_quote_at_reserve |].
  split.
  - intros Hlt.
    destruct (reverse_quote_beyond_reserve outputAmount inputReserve outputReserve)
      as [q [Hq Hq0]]; [lia | lia |].
    exists q. repeat split; auto using guardAmount_nonpositive.
  - erewrite validateBuy_route_failure; [reflexivity | exact Hp |].
    rewrite calculateAmount_buy_first_hop, HrE, HrT.
    destruct (Z.eqb_spec outputAmount outputReserve) as [-> | NE].
    + rewrite reverse_quote_at_reserve. reflexivity.
    + destruct (reverse_quote_beyond_reserve
                  outputAmount inputReserve outputReserve)
        as [q [Hq Hq0]]; [lia | lia |].
      rewrite Hq. cbn [bind].
      rewrite guardAmount_nonpositive by assumption. reflexivity.
Qed.

(** *** The non-breaking checks *)

Lemma slippage_maximum_capped (value : Z) :
  exists band,
    calculateSlippageBounds value = Ok band /\ maximum band <= BN.MaxUint256.
Proof.
  unfold calculateSlippageBounds. rewrite slippage_offset. cbn [bind].
  eexists. split; [reflexivity |]. cbn [maximum].
  destruct (Z.gtb_spec (value + Z.quot (value * ALLOWED_SLIPPAGE) 10000)
                       BN.MaxUint256); lia.
Qed.

Lemma calculateSlippageBounds_total (value : Z) :
  exists band, calculateSlippageBounds value = Ok band.
Proof.
  destruct (slippage_maximum_capped value) as [band [H _]]. now exists band.
Qed.

(** C6 (amended): when the amount parses and the route resolves, a buy
    always returns a quote carrying the computed input, its slippage maximum
    and the parsed output, and a sell whose gas balance, SOCKS balance and
    SOCKS allowance are loaded returns a quote carrying the parsed input, the
    computed output and its slippage minimum.  The quote's one error is the
    first failing check in the order gas, balance, allowance; checks failing
    after it leave no trace in the quote. *)
Theorem C6_quote_and_first_error (ctx : Context) (s : string) (parsedValue : Z) :
  parseUnits s 18 = Ok parsedValue ->
  (forall amount,
      calculateAmount TOKEN_SYMBOLS
        ctx.(selectedTokenSymbol) TOKEN_SYMBOLS.(SOCKS) parsedValue
        ctx.(reserveSOCKSETH) ctx.(reserveSOCKSToken)
        ctx.(reserveSelectedTokenETH) ctx.(reserveSelectedTokenToken)
      = Ok amount ->
      exists band,
        calculateSlippageBounds amount = Ok band /\
        validateBuy TOKEN_SYMBOLS parseUnits ctx s
        = Ok {| BuyQuote.inputValue := amount;
                BuyQuote.maximumInputValue := band.(maximum);
                BuyQuote.outputValue := parsedValue;
                BuyQuote.error := firstFailed (buyChecks ctx band.(maximum)) |})
  /\
  (forall amount gasBalance socksBalance socksAllowance,
      calculateAmount TOKEN_SYMBOLS
        TOKEN_SYMBOLS.(SOCKS) ctx.(selectedTokenSymbol) parsedValue
        ctx.(reserveSOCKSETH) ctx.(reserveSOCKSToken)
        ctx.(reserveSelectedTokenETH) ctx.(reserveSelectedTokenToken)
      = Ok amount ->
      ctx.(balanceETH) = Some gasBalance ->
      ctx.(balanceSOCKS) = Some socksBalance ->
      ctx.(allowanceSOCKS) = Some socksAllowance ->
      exists band,
        calculateSlippageBounds amount = Ok band /\
        validateSell TOKEN_SYMBOLS parseUnits ctx s
        = Ok {| SellQuote.inputValue := parsedValue;
                SellQuote.outputValue := amount;
                SellQuote.minimumOutputValue := band.(minimum);
                SellQuote.error :=
                  firstFailed (sellChecks gasBalance socksBalance
                                          socksAllowance parsedValue) |}).
Proof.
  intros Hp. split.
  - intros amount Hr.
    destruct (calculateSlippageBounds_total amount) as [band Hb].
    exists band. split; [exact Hb |].
    unfold validateBuy. rewrite Hp. cbn [try_rethrow bind].
    rewrite Hr. cbn [try_rethrow bind]. rewrite Hb. cbn [try_rethrow bind].
    unfold firstFailed, buyChecks. cbn [find snd fst].
    destruct (present_and_lt (balanceETH ctx) MIN_ETH_GAS);
      destruct (present_and_lt (balanceSelectedToken ctx) (maximum band));
      destruct (selectedTokenSymbol ctx =? "ETH")%string;
      destruct (present_and_lt (allowanceSelectedToken ctx) (maximum band));
      reflexivity.
  - intros amount gasBalance socksBalance socksAllowance Hr HbE HbS HaS.
    destruct (calculateSlippageBounds_total amount) as [band Hb].
    exists band. split; [exact Hb |].
    unfold validateSell. rewrite Hp. cbn [try_rethrow bind].
    rewrite Hr. cbn [try_rethrow bind]. rewrite Hb. cbn [try_rethrow bind].
    unfold deref_lt. rewrite HbE, HbS, HaS. cbn [BN.recv try_rethrow bind].
    unfold firstFailed, sellChecks. cbn [find snd fst].
    destruct (gasBalance <? MIN_ETH_GAS);
      destruct (socksBalance <? parsedValue);
      destruct (socksAllowance <? parsedValue);
      reflexivity.
Qed.

(** C10: the two validators treat an absent datum differently.  In a buy, an
    absent gas balance, paying balance or allowance is indistinguishable
    from one that passes its check, and with all three absent the quote
    carries no error.  In a sell whose amount parses and whose route
    resolves, an absent gas balance, SOCKS balance or SOCKS allowance makes
    the validator throw a TypeError, with no code and no quote. *)
Theorem C10_absent_context_asymmetry
    (sel : string) (bE bS bSel aS aSel r1 r2 r3 r4 d1 d2 : JsBN) (s : string) :
  validateBuy TOKEN_SYMBOLS parseUnits
    (Build_Context sel None bS bSel aS aSel r1 r2 r3 r4 d1 d2) s
  = validateBuy TOKEN_SYMBOLS parseUnits
      (Build_Context sel (Some MIN_ETH_GAS) bS bSel aS aSel r1 r2 r3 r4 d1 d2) s
  /\
  validateBuy TOKEN_SYMBOLS parseUnits
    (Build_Context sel bE bS None aS aSel r1 r2 r3 r4 d1 d2) s
  = validateBuy TOKEN_SYMBOLS parseUnits
      (Build_Context sel bE bS (Some BN.MaxUint256) aS aSel r1 r2 r3 r4 d1 d2) s
  /\
  validateBuy TOKEN_SYMBOLS parseUnits
    (Build_Context sel bE bS bSel aS None r1 r2 r3 r4 d1 d2) s
  = validateBuy TOKEN_SYMBOLS parseUnits
      (Build_Context sel bE bS bSel aS (Some BN.MaxUint256) r1 r2 r3 r4 d1 d2) s
  /\
  (forall parsedValue amount,
      parseUnits s 18 = Ok parsedValue ->
      calculateAmount TOKEN_SYMBOLS sel TOKEN_SYMBOLS.(SOCKS) parsedValue
        r1 r2 r3 r4 = Ok amount ->
      exists band,
        calculateSlippageBounds amount = Ok band /\
        validateBuy TOKEN_SYMBOLS parseUnits
          (Build_Context sel None bS None aS None r1 r2 r3 r4 d1 d2) s
        = Ok {| BuyQuote.inputValue := amount;
                BuyQuote.maximumInputValue := band.(maximum);
                BuyQuote.outputValue := parsedValue;
                BuyQuote.error := None |})
  /\
  (forall parsedValue amount,
      parseUnits s 18 = Ok parsedValue ->
      calculateAmount TOKEN_SYMBOLS TOKEN_SYMBOLS.(SOCKS) sel parsedValue
        r1 r2 r3 r4 = Ok amount ->
      bE = None \/ bS = None \/ aS = None ->
      validateSell TOKEN_SYMBOLS parseUnits
        (Build_Context sel bE bS bSel aS aSel r1 r2 r3 r4 d1 d2) s
      = Throw (uncoded TypeError)).
Proof.
  assert (Hcap : forall band value,
             calculateSlippageBounds value = Ok band ->
             present_and_lt (Some BN.MaxUint256) (maximum band) = false).
  { intros band value Hb.
    destruct (slippage_maximum_capped value) as [band' [Hb' Hle]].
    assert (band' = band) by congruence. subst band'.
    cbn [present_and_lt]. apply Z.ltb_ge. exact Hle. }
  assert (Hgas : present_and_lt (Some MIN_ETH_GAS) MIN_ETH_GAS = false)
    by (cbn [present_and_lt]; apply Z.ltb_irrefl).
  split; [| split; [| split; [| split]]].
  - unfold validateBuy. cbn [balanceETH]. rewrite Hgas. reflexivity.
  - unfold validateBuy.
    cbn [selectedTokenSymbol balanceETH balanceSelectedToken
         allowanceSelectedToken reserveSOCKSETH reserveSOCKSToken
         reserveSelectedTokenETH reserveSelectedTokenToken].
    destruct (parseUnits s 18) as [v | e]; [| reflexivity].
    cbn [try_rethrow bind].
    destruct (calculateAmount TOKEN_SYMBOLS sel (SOCKS TOKEN_SYMBOLS) v r1 r2 r3 r4)
      as [a | e]; [| reflexivity].
    cbn [try_rethrow bind].
    destruct (calculateSlippageBounds a) as [band | e] eqn:Hb; [| reflexivity].
    cbn [try_rethrow bind]. rewrite (Hcap band a Hb). reflexivity.
  - unfold validateBuy.
    cbn [selectedTokenSymbol balanceETH balanceSelectedToken
         allowanceSelectedToken reserveSOCKSETH reserveSOCKSToken
         reserveSelectedTokenETH reserveSelectedTokenToken].
    destruct (parseUnits s 18) as [v | e]; [| reflexivity].
    cbn [try_rethrow bind].
    destruct (calculateAmount TOKEN_SYMBOLS sel (SOCKS TOKEN_SYMBOLS) v r1 r2 r3 r4)
      as [a | e]; [| reflexivity].
    cbn [try_rethrow bind].
    destruct (calculateSlippageBounds a) as [band | e] eqn:Hb; [| reflexivity].
    cbn [try_rethrow bind]. rewrite (Hcap band a Hb). reflexivity.
  - intros parsedValue amount Hp Hr.
    destruct (calculateSlippageBounds_total amount) as [band Hb].
    exists band. split; [exact Hb |].
    unfold validateBuy.
    cbn [selectedTokenSymbol balanceETH balanceSelectedToken
         allowanceSelectedToken reserveSOCKSETH reserveSOCKSToken
         reserveSelectedTokenETH reserveSelectedTokenToken].
    rewrite Hp. cbn [try_rethrow bind]. rewrite Hr. cbn [try_rethrow bind].
    rewrite Hb. cbn [try_rethrow bind present_and_lt].
    destruct (negb (sel =? "ETH")%string); reflexivity.
  - intros parsedValue amount Hp Hr Habs.
    destruct (calculateSlippageBounds_total amount) as [band Hb].
    unfold validateSell.
    cbn [selectedTokenSymbol balanceETH balanceSOCKS allowanceSOCKS
         reserveSOCKSETH reserveSOCKSToken
         reserveSelectedTokenETH reserveSelectedTokenToken].
    rewrite Hp. cbn [try_rethrow bind]. rewrite Hr. cbn [try_rethrow bind].
    rewrite Hb. cbn [try_rethrow bind].
    unfold deref_lt.
    destruct bE as [e |]; [| reflexivity].
    destruct bS as [b |]; [| reflexivity].
    destruct aS as [a |]; [| reflexivity].
    destruct Habs as [H | [H | H]]; discriminate H.
Qed.

End ValidatorFacts.

(** ** Exchange rate *)

(** C5 as stated fails: a zero reserve in the divisor position makes the
    function throw the division fault, and a zero reserve in the dividend
    position yields the rate [0]; neither is the unavailable result. *)
Lemma C5_zero_reserve_counterexample :
  getExchangeRate (Some 0) (Some (20000 * 10 ^ 18)) false
    = Throw DivisionByZero /\
  getExchangeRate (Some (100 * 10 ^ 18)) (Some 0) false = Ok (Some 0) /\
  getExchangeRate (Some 0) (Some (20000 * 10 ^ 18)) false <> Ok None /\
  getExchangeRate (Some (100 * 10 ^ 18)) (Some 0) false <> Ok None.
Proof. repeat split; try reflexivity; discriminate. Qed.

(** C5 (amended): the function returns the unavailable result when a reserve
    is absent, and only then.  With both reserves present, a zero reserve in
    the divisor position (the input reserve, or the output reserve when
    inverted) raises the division fault, and a zero reserve in the dividend
    position alone yields the rate [0]. *)
Theorem C5_exchange_rate_absent_or_zero
    (inputValue outputValue : JsBN) (invert : bool) :
  (inputValue = None \/ outputValue = None ->
   getExchangeRate inputValue outputValue invert = Ok None) /\
  (forall i o,
      inputValue = Some i -> outputValue = Some o ->
      (if invert then o else i) = 0 ->
      getExchangeRate inputValue outputValue invert = Throw DivisionByZero) /\
  (forall i o,
      inputValue = Some i -> outputValue = Some o ->
      (if invert then o else i) <> 0 ->
      (if invert then i else o) = 0 ->
      getExchangeRate inputValue outputValue invert = Ok (Some 0)) /\
  (forall i o,
      inputValue = Some i -> outputValue = Some o ->
      getExchangeRate inputValue outputValue invert <> Ok None).
Proof.
  split; [| split; [| split]].
  - intros [-> | ->]; [reflexivity |].
    destruct inputValue; reflexivity.
  - intros i o -> -> Hz. unfold getExchangeRate.
    destruct invert; subst; reflexivity.
  - intros i o -> -> Hnz Hz. unfold getExchangeRate.
    destruct invert; subst; cbn [Z.mul];
      rewrite div_nonzero by assumption; rewrite Z.quot_0_l by assumption;
      reflexivity.
  - intros i o -> ->. unfold getExchangeRate.
    destruct invert;
      match goal with
      | |- context [BN.div ?a ?b] => destruct (BN.div a b) as [q | e]
      end; cbn [bind]; try discriminate;
      rewrite div_nonzero by lia; discriminate.
Qed.

Lemma C5_exchange_rate_absent_or_zero_witness :
  getExchangeRate None (Some 0) false = Ok None /\
  getExchangeRate (Some 0) (Some 7) false = Throw DivisionByZero /\
  getExchangeRate (Some 7) (Some 0) false = Ok (Some 0).
Proof.
  split; [| split].
  - apply (proj1 (C5_exchange_rate_absent_or_zero None (Some 0) false)).
    left. reflexivity.
  - apply (proj1 (proj2 (C5_exchange_rate_absent_or_zero
                           (Some 0) (Some 7) false)) 0 7);
      reflexivity.
  - apply (proj1 (proj2 (proj2 (C5_exchange_rate_absent_or_zero
                                  (Some 7) (Some 0) false))) 7 0);
      try reflexivity. discriminate.
Defined.

(** The fault does not leave the effect that refreshes the rates: its
    [catch] clears both of them. *)
Lemma exchangeRateEffect_clears_on_zero_reserve
    (TOKEN_SYMBOLS : TokenSymbols) (ctx : Context) (st : RateState) (o : Z) :
  ctx.(reserveDAIETH) = Some 0 ->
  ctx.(reserveDAIToken) = Some o ->
  exchangeRateEffect TOKEN_SYMBOLS ctx st
  = {| USDExchangeRateETH := None; USDExchangeRateSelectedToken := None |}.
Proof.
  intros H1 H2. unfold exchangeRateEffect. rewrite H1, H2. reflexivity.
Qed.

(** ** The engine on concrete pools *)

(** Buying 1 SOCKS from the pool of 1000 ETH against 50 SOCKS. *)
Example reverse_quote_one_sock :
  calculateEtherTokenInputFromOutput
    (10 ^ 18) (Some (1000 * 10 ^ 18)) (Some (50 * 10 ^ 18))
  = Ok 20469571981249872066.
Proof. vm_compute. reflexivity. Qed.

Lemma C9_reverse_quote_positive_witness :
  exists amount,
    calculateEtherTokenInputFromOutput
      (10 ^ 18) (Some (1000 * 10 ^ 18)) (Some (50 * 10 ^ 18)) = Ok amount /\
    1 <= amount /\
    (amount <=? BN.Zero) = false /\
    calculateAmount symbols symbols.(ETH) symbols.(SOCKS)
      (10 ^ 18) (Some (1000 * 10 ^ 18)) (Some (50 * 10 ^ 18)) None None
    = if amount >=? BN.MaxUint256 then Throw PlainError else Ok amount.
Proof. apply C9_reverse_quote_positive; lia. Defined.

(** C3 as stated fails twice over.  With an empty ETH reserve, a request for
    51 SOCKS against a reserve of 50 is quoted at one unit and no error is
    raised.  And at a request equal to the reserve, the reverse quote itself
    faults on the zero divisor of its formula: nothing upstream of the
    division rejects the request. *)
Lemma C3_beyond_reserve_counterexample :
  validateBuy symbols parseWholeUnits
    (poolContext (Some (50 * 10 ^ 18)) (Some (50 * 10 ^ 18)) (Some 0) None) "51"
  = Ok {| BuyQuote.inputValue := 1;
          BuyQuote.maximumInputValue := 1;
          BuyQuote.outputValue := 51 * 10 ^ 18;
          BuyQuote.error := None |} /\
  calculateEtherTokenInputFromOutput
    (50 * 10 ^ 18) (Some (1000 * 10 ^ 18)) (Some (50 * 10 ^ 18))
  = Throw DivisionByZero.
Proof. split; vm_compute; reflexivity. Qed.

Lemma C3_buy_at_or_beyond_reserve_witness :
  validateBuy symbols parseWholeUnits sampleContext "51"
  = Throw {| cause := PlainError; code := Some INVALID_TRADE |}.
Proof.
  apply (proj2 (proj2
    (C3_buy_at_or_beyond_reserve symbols parseWholeUnits sampleContext "51"
       (51 * 10 ^ 18) (1000 * 10 ^ 18) (50 * 10 ^ 18)
       eq_refl eq_refl eq_refl ltac:(lia) ltac:(lia)))).
Defined.

(** C4: selling 1 SOCKS into a pool whose ETH reserve is empty resolves to a
    zero amount, which the route guard rejects.  The sell validator aborts
    with the property [INVALID_EXCHANGE] as code, for which the taxonomy has
    no kind; the buy validator aborts a failed route with [INVALID_TRADE]. *)
Theorem C4_sell_route_failure_code :
  validateSell symbols parseWholeUnits
    (poolContext (Some (50 * 10 ^ 18)) (Some (50 * 10 ^ 18)) (Some 0) None) "1"
  = Throw {| cause := PlainError; code := Some INVALID_EXCHANGE |} /\
  validateBuy symbols parseWholeUnits sampleContext "50"
  = Throw {| cause := DivisionByZero; code := Some INVALID_TRADE |} /\
  spec_ERROR_CODES INVALID_EXCHANGE = None /\
  spec_ERROR_CODES INVALID_TRADE = Some InvalidTrade.
Proof. repeat split; vm_compute; reflexivity. Qed.

(** C6 as stated fails.  A buy with a low gas balance returns the very same
    quote whether or not the paying balance also falls short: the second
    failure is not in what the caller receives.  And a sell whose amount
    parses and whose route resolves returns no quote at all when the gas
    balance has not been loaded. *)
Lemma C6_later_errors_dropped_counterexample :
  let enough :=
    poolContext (Some (5 * 10 ^ 15)) (Some (50 * 10 ^ 18))
                (Some (1000 * 10 ^ 18)) None in
  let short :=
    poolContext (Some (5 * 10 ^ 15)) (Some 0) (Some (1000 * 10 ^ 18)) None in
  let unloaded :=
    poolContext None (Some 0) (Some (1000 * 10 ^ 18)) None in
  let quote :=
    {| BuyQuote.inputValue := 20469571981249872066;
       BuyQuote.maximumInputValue := 20878963420874869507;
       BuyQuote.outputValue := 10 ^ 18;
       BuyQuote.error := Some (new_error INSUFFICIENT_ETH_GAS) |} in
  validateBuy symbols parseWholeUnits enough "1" = Ok quote /\
  validateBuy symbols parseWholeUnits short "1" = Ok quote /\
  find snd (tl (buyChecks enough quote.(BuyQuote.maximumInputValue))) = None /\
  find snd (tl (buyChecks short quote.(BuyQuote.maximumInputValue)))
    = Some (INSUFFICIENT_SELECTED_TOKEN_BALANCE, true) /\
  parseWholeUnits "1" 18 = Ok (10 ^ 18) /\
  calculateAmount symbols symbols.(SOCKS) unloaded.(selectedTokenSymbol)
    (10 ^ 18) unloaded.(reserveSOCKSETH) unloaded.(reserveSOCKSToken)
    unloaded.(reserveSelectedTokenETH) unloaded.(reserveSelectedTokenToken)
    = Ok 19550169617820656117 /\
  validateSell symbols parseWholeUnits unloaded "1"
  = Throw (uncoded TypeError).
Proof. repeat split; vm_compute; reflexivity. Qed.

Lemma C6_quote_and_first_error_witness :
  validateBuy symbols parseWholeUnits sampleContext "1"
  = Ok {| BuyQuote.inputValue := 20469571981249872066;
          BuyQuote.maximumInputValue := 20878963420874869507;
          BuyQuote.outputValue := 10 ^ 18;
          BuyQuote.error := None |} /\
  validateSell symbols parseWholeUnits sampleContext "1"
  = Ok {| SellQuote.inputValue := 10 ^ 18;
          SellQuote.outputValue := 19550169617820656117;
          SellQuote.minimumOutputValue := 19159166225464242995;
          SellQuote.error := None |}.
Proof.
  destruct (C6_quote_and_first_error symbols parseWholeUnits sampleContext "1"
              (10 ^ 18) eq_refl) as [Hbuy Hsell].
  split.
  - destruct (Hbuy 20469571981249872066 eq_refl) as [band [Hband Hrun]].
    rewrite Hrun. vm_compute in Hband. injection Hband as <-.
    vm_compute. reflexivity.
  - destruct (Hsell 19550169617820656117 (50 * 10 ^ 18) (10 * 10 ^ 18)
                (10 * 10 ^ 18) eq_refl eq_refl eq_refl eq_refl)
      as [band [Hband Hrun]].
    rewrite Hrun. vm_compute in Hband. injection Hband as <-.
    vm_compute. reflexivity.
Defined.

Lemma C10_absent_context_asymmetry_witness :
  (exists band,
      calculateSlippageBounds 20469571981249872066 = Ok band /\
      validateBuy symbols parseWholeUnits
        (poolContext None None (Some (1000 * 10 ^ 18)) None) "1"
      = Ok {| BuyQuote.inputValue := 20469571981249872066;
              BuyQuote.maximumInputValue := band.(maximum);
              BuyQuote.outputValue := 10 ^ 18;
              BuyQuote.error := None |}) /\
  validateSell symbols parseWholeUnits
    (poolContext None None (Some (1000 * 10 ^ 18)) None) "1"
  = Throw (uncoded TypeError).
Proof.
  pose proof (C10_absent_context_asymmetry symbols parseWholeUnits
                "ETH" None (Some (10 * 10 ^ 18)) None (Some (10 * 10 ^ 18)) None
                (Some (1000 * 10 ^ 18)) (Some (50 * 10 ^ 18)) None None
                None (Some (20000 * 10 ^ 18)) "1")
    as [_ [_ [_ [Hbuy Hsell]]]].
  split.
  - exact (Hbuy (10 ^ 18) 20469571981249872066 eq_refl eq_refl).
  - exact (Hsell (10 ^ 18) 19550169617820656117 eq_refl eq_refl
                 (or_introl eq_refl)).
Defined.

(** * Further properties of the engine *)

(** ** Gas margin *)

(** With the margin of 1000 bips, a non-negative estimate grows by a tenth,
    rounded down: the result is never below the estimate and never above
    eleven tenths of it. *)
Theorem calculateGasMargin_tenth (value : Z) :
  0 <= value ->
  exists limit,
    calculateGasMargin value GAS_MARGIN = Ok limit /\
    limit = value + value / 10 /\
    value <= limit /\ 10 * limit <= 11 * value.
Proof.
  intros Hv. unfold calculateGasMargin, GAS_MARGIN.
  rewrite div_floor by lia. cbn [bind].
  eexists. split; [reflexivity |].
  replace 10000 with (10 * 1000) by reflexivity.
  rewrite Z.div_mul_cancel_r by lia.
  pose proof (Z.mul_div_le value 10 ltac:(lia)).
  assert (0 <= value / 10) by (apply Z.div_pos; lia).
  repeat split; lia.
Qed.

Lemma calculateGasMargin_tenth_witness :
  exists limit,
    calculateGasMargin 90003 GAS_MARGIN = Ok limit /\
    limit = 90003 + 90003 / 10 /\
    90003 <= limit /\ 10 * limit <= 11 * 90003.
Proof. apply calculateGasMargin_tenth; lia. Defined.

(** ** The constant-product quotes *)

(** On positive reserves the forward quote of a non-negative input is
    non-negative and strictly below the output reserve, so no trade empties
    the pool; an input of zero is quoted zero. *)
Theorem forward_quote_range (inputAmount r_in r_out : Z) :
  0 <= inputAmount -> 0 < r_in -> 0 < r_out ->
  exists out,
    calculateEtherTokenOutputFromInput inputAmount (Some r_in) (Some r_out)
      = Ok out /\
    0 <= out < r_out /\
    (inputAmount = 0 -> out = 0).
Proof.
  intros Ha Hri Hro. eexists.
  split; [apply forward_quote_floor; lia |].
  split; [apply forward_quote_below_reserve; assumption |].
  intros ->. reflexivity.
Qed.

Lemma forward_quote_range_witness :
  exists out,
    calculateEtherTokenOutputFromInput (10 ^ 18)
      (Some (50 * 10 ^ 18)) (Some (1000 * 10 ^ 18)) = Ok out /\
    0 <= out < 1000 * 10 ^ 18 /\
    (10 ^ 18 = 0 -> out = 0).
Proof. apply forward_quote_range; lia. Defined.

(* The statement of [forward_quote_keeps_product], in the form later proofs use. *)
Lemma forward_quote_keeps_product_aux (inputAmount r_in r_out : Z) :
  0 <= inputAmount -> 0 < r_in -> 0 <= r_out ->
  exists out,
    calculateEtherTokenOutputFromInput inputAmount (Some r_in) (Some r_out)
      = Ok out /\
    r_in * 1000 * r_out
      <= (r_in * 1000 + inputAmount * 997) * (r_out - out) /\
    r_in * r_out <= (r_in + inputAmount) * (r_out - out).
Proof.
  intros Ha Hri Hro.
  set (D := r_in * 1000 + inputAmount * 997).
  set (out := inputAmount * 997 * r_out / D).
  assert (HD : 0 < D) by (unfold D; lia).
  assert (Hle : D * out <= inputAmount * 997 * r_out)
    by (apply Z.mul_div_le; lia).
  assert (Hout : 0 <= out) by (apply Z.div_pos; nia).
  exists out. split; [apply forward_quote_floor; lia |].
  split.
  - replace (D * (r_out - out)) with (D * r_out - D * out) by ring.
    unfold D at 1. lia.
  - assert (H997 : 997 * ((r_in + inputAmount) * out) <= D * out).
    { replace (997 * ((r_in + inputAmount) * out))
        with ((997 * (r_in + inputAmount)) * out) by ring.
      apply Z.mul_le_mono_nonneg_r; [assumption | unfold D; lia]. }
    replace ((r_in + inputAmount) * (r_out - out))
      with (r_in * r_out + (inputAmount * r_out - (r_in + inputAmount) * out))
      by ring.
    lia.
Qed.

(** The forward quote never lowers the product of the reserves: neither the
    fee-weighted product that the exchange checks nor the plain one. *)
Theorem forward_quote_keeps_product (inputAmount r_in r_out : Z) :
  0 <= inputAmount -> 0 < r_in -> 0 <= r_out ->
  exists out,
    calculateEtherTokenOutputFromInput inputAmount (Some r_in) (Some r_out)
      = Ok out /\
    r_in * 1000 * r_out
      <= (r_in * 1000 + inputAmount * 997) * (r_out - out) /\
    r_in * r_out <= (r_in + inputAmount) * (r_out - out).
Proof. intros. eapply forward_quote_keeps_product_aux; eassumption. Qed.

Lemma forward_quote_keeps_product_witness :
  exists out,
    calculateEtherTokenOutputFromInput 7 (Some 1000) (Some 500) = Ok out /\
    1000 * 1000 * 500 <= (1000 * 1000 + 7 * 997) * (500 - out) /\
    1000 * 500 <= (1000 + 7) * (500 - out).
Proof. apply forward_quote_keeps_product; lia. Defined.

(* The statement of [reverse_quote_raises_product], in the form later proofs use. *)
Lemma reverse_quote_raises_product_aux (outputAmount r_in r_out : Z) :
  0 <= outputAmount < r_out -> 0 <= r_in ->
  exists pay,
    calculateEtherTokenInputFromOutput outputAmount (Some r_in) (Some r_out)
      = Ok pay /\
    r_in * 1000 * r_out
      < (r_in * 1000 + pay * 997) * (r_out - outputAmount).
Proof.
  intros Ho Hri.
  set (den := (r_out - outputAmount) * 997).
  set (q := r_in * outputAmount * 1000 / den).
  assert (Hden : 0 < den) by (unfold den; lia).
  assert (Hq : r_in * outputAmount * 1000 < den * (q + 1)).
  { pose proof (Z.mul_succ_div_gt (r_in * outputAmount * 1000) den Hden).
    unfold q. lia. }
  exists (q + 1). split; [apply reverse_quote_floor; assumption |].
  unfold den in Hq.
  replace ((r_in * 1000 + (q + 1) * 997) * (r_out - outputAmount))
    with (r_in * 1000 * r_out - r_in * outputAmount * 1000
          + (r_out - outputAmount) * 997 * (q + 1)) by ring.
  lia.
Qed.

(** The reverse quote strictly raises the fee-weighted product of the
    reserves: the payment it asks for always covers the requested output. *)
Theorem reverse_quote_raises_product (outputAmount r_in r_out : Z) :
  0 <= outputAmount < r_out -> 0 <= r_in ->
  exists pay,
    calculateEtherTokenInputFromOutput outputAmount (Some r_in) (Some r_out)
      = Ok pay /\
    r_in * 1000 * r_out
      < (r_in * 1000 + pay * 997) * (r_out - outputAmount).
Proof. intros. eapply reverse_quote_raises_product_aux; eassumption. Qed.

Lemma reverse_quote_raises_product_witness :
  exists pay,
    calculateEtherTokenInputFromOutput 7 (Some 1000) (Some 500) = Ok pay /\
    1000 * 1000 * 500 < (1000 * 1000 + pay * 997) * (500 - 7).
Proof. apply reverse_quote_raises_product; lia. Defined.

(** For fixed reserves the reverse quote is monotonically non-decreasing in
    the requested output. *)
Theorem reverse_quote_monotone (a b r_in r_out : Z) :
  0 <= a -> a <= b -> b < r_out -> 0 <= r_in ->
  exists pa pb,
    calculateEtherTokenInputFromOutput a (Some r_in) (Some r_out) = Ok pa /\
    calculateEtherTokenInputFromOutput b (Some r_in) (Some r_out) = Ok pb /\
    pa <= pb.
Proof.
  intros Ha Hab Hb Hri.
  do 2 eexists. rewrite !reverse_quote_floor by lia.
  split; [reflexivity | split; [reflexivity |]].
  apply Z.add_le_mono_r.
  transitivity (r_in * a * 1000 / ((r_out - b) * 997)).
  - apply Z.div_le_compat_l; [nia | lia].
  - apply Z.div_le_mono; [lia | nia].
Qed.

Lemma reverse_quote_monotone_witness :
  exists pa pb,
    calculateEtherTokenInputFromOutput 3 (Some 1000) (Some 500) = Ok pa /\
    calculateEtherTokenInputFromOutput 40 (Some 1000) (Some 500) = Ok pb /\
    pa <= pb.
Proof. apply reverse_quote_monotone; lia. Defined.

(** Neither quote is ever better than the spot price of the pool: selling
    [inputAmount] yields at most [inputAmount * r_out / r_in], and buying
    [outputAmount] costs more than [outputAmount * r_in / r_out]. *)
Theorem quotes_never_beat_spot (amount r_in r_out : Z) :
  0 < r_in -> 0 < r_out -> 0 <= amount ->
  (exists out,
      calculateEtherTokenOutputFromInput amount (Some r_in) (Some r_out)
        = Ok out /\
      out * r_in <= amount * r_out) /\
  (amount < r_out ->
   exists pay,
     calculateEtherTokenInputFromOutput amount (Some r_in) (Some r_out)
       = Ok pay /\
     amount * r_in < pay * r_out).
Proof.
  intros Hri Hro Ha. split.
  - destruct (forward_quote_keeps_product_aux amount r_in r_out)
      as [out [Hrun [_ Hk]]]; try lia.
    exists out. split; [exact Hrun |].
    assert (Hout : 0 <= out).
    { rewrite forward_quote_floor in Hrun by lia.
      injection Hrun as <-. apply Z.div_pos; nia. }
    replace ((r_in + amount) * (r_out - out))
      with (r_in * r_out + (amount * r_out - out * r_in) - amount * out)
      in Hk by ring.
    assert (0 <= amount * out) by (apply Z.mul_nonneg_nonneg; lia).
    lia.
  - intros Hlt.
    destruct (reverse_quote_raises_product_aux amount r_in r_out)
      as [pay [Hrun Hk]]; try lia.
    exists pay. split; [exact Hrun |].
    assert (Hpay : 1 <= pay).
    { rewrite reverse_quote_floor in Hrun by lia.
      injection Hrun as <-.
      assert (0 <= r_in * amount * 1000 / ((r_out - amount) * 997))
        by (apply Z.div_pos; nia).
      lia. }
    replace ((r_in * 1000 + pay * 997) * (r_out - amount))
      with (r_in * 1000 * r_out
            + 997 * (pay * r_out - amount * r_in)
            - (3 * (amount * r_in) + 997 * (pay * amount))) in Hk by ring.
    assert (0 <= amount * r_in) by (apply Z.mul_nonneg_nonneg; lia).
    assert (0 <= pay * amount) by (apply Z.mul_nonneg_nonneg; lia).
    lia.
Qed.

Lemma quotes_never_beat_spot_witness :
  (exists out,
      calculateEtherTokenOutputFromInput 7 (Some 1000) (Some 500) = Ok out /\
      out * 1000 <= 7 * 500) /\
  exists pay,
    calculateEtherTokenInputFromOutput 7 (Some 1000) (Some 500) = Ok pay /\
    7 * 1000 < pay * 500.
Proof.
  destruct (quotes_never_beat_spot 7 1000 500) as [Hsell Hbuy]; try lia.
  split; [exact Hsell | apply Hbuy; lia].
Defined.

Lemma reverse_then_forward_delivers_witness :
  exists pay got,
    calculateEtherTokenInputFromOutput 7 (Some 1000) (Some 500) = Ok pay /\
    calculateEtherTokenOutputFromInput pay (Some 1000) (Some 500) = Ok got /\
    7 <= got.
Proof. apply reverse_then_forward_delivers; lia. Defined.

(** ** Route resolution *)

Lemma bind_ok_inv {E A B} (m : Result E A) (k : A -> Result E B) (b : B) :
  bind m k = Ok b -> exists a, m = Ok a /\ k a = Ok b.
Proof.
  destruct m as [a | e]; cbn [bind]; [| discriminate].
  intros H. now exists a.
Qed.

Lemma guardAmount_inv (amount result : Z) :
  guardAmount amount = Ok result ->
  result = amount /\ 0 < amount < BN.MaxUint256.
Proof.
  unfold guardAmount, BN.Zero.
  destruct (Z.leb_spec amount 0) as [Hle | Hpos]; [discriminate |].
  destruct (Z.geb_spec amount BN.MaxUint256) as [Hge | Hlt]; [discriminate |].
  cbn [orb]. intros Heq. injection Heq as <-. lia.
Qed.

Lemma guarded_quote_range (quote : M Z) (result : Z) :
  (amount <- quote ;; guardAmount amount) = Ok result ->
  0 < result < BN.MaxUint256.
Proof.
  intros H. destruct (bind_ok_inv _ _ _ H) as [a [_ Hg]].
  destruct (guardAmount_inv _ _ Hg) as [-> Hr]. exact Hr.
Qed.

Section RouteFacts.

Variable TOKEN_SYMBOLS : TokenSymbols.
Variable parseUnits : string -> Z -> M Z.

(* The statement of [calculateAmount_result_range], in the form later proofs use. *)
Lemma calculateAmount_result_range_aux
    (inputTokenSymbol outputTokenSymbol : string) (SOCKSAmount amount : Z)
    (r1 r2 r3 r4 : JsBN) :
  calculateAmount TOKEN_SYMBOLS inputTokenSymbol outputTokenSymbol
    SOCKSAmount r1 r2 r3 r4 = Ok amount ->
  0 < amount < BN.MaxUint256.
Proof.
  unfold calculateAmount.
  destruct ((inputTokenSymbol =? ETH TOKEN_SYMBOLS)%string
            && (outputTokenSymbol =? SOCKS TOKEN_SYMBOLS)%string);
    [apply guarded_quote_range |].
  destruct ((inputTokenSymbol =? SOCKS TOKEN_SYMBOLS)%string
            && (outputTokenSymbol =? ETH TOKEN_SYMBOLS)%string);
    [apply guarded_quote_range |].
  destruct (outputTokenSymbol =? SOCKS TOKEN_SYMBOLS)%string; intros H;
    destruct (bind_ok_inv _ _ _ H) as [x [_ H1]];
    destruct (bind_ok_inv _ _ _ H1) as [y [_ H2]];
    exact (guarded_quote_range _ _ H2).
Qed.

(** Whatever the pair of symbols and the reserves, an amount that route
    resolution returns is strictly between zero and [MaxUint256]. *)
Theorem calculateAmount_result_range
    (inputTokenSymbol outputTokenSymbol : string) (SOCKSAmount amount : Z)
    (r1 r2 r3 r4 : JsBN) :
  calculateAmount TOKEN_SYMBOLS inputTokenSymbol outputTokenSymbol
    SOCKSAmount r1 r2 r3 r4 = Ok amount ->
  0 < amount < BN.MaxUint256.
Proof. intros. eapply calculateAmount_result_range_aux; eassumption. Qed.

End RouteFacts.

Lemma calculateAmount_result_range_witness :
  0 < 20469571981249872066 < BN.MaxUint256.
Proof.
  apply (calculateAmount_result_range symbols "ETH" "SOCKS" (10 ^ 18)
           20469571981249872066
           (Some (1000 * 10 ^ 18)) (Some (50 * 10 ^ 18)) None None).
  vm_compute. reflexivity.
Defined.

(** ** The validators *)

(** On a valid amount the band computed by [calculateSlippageBounds] is the
    amount less, and plus, a fiftieth of it, the upper end capped. *)
Lemma slippage_band_of_valid (x : Z) :
  0 <= x <= BN.MaxUint256 ->
  calculateSlippageBounds x
  = Ok {| minimum := x - x / 50;
          maximum := Z.min (x + x / 50) BN.MaxUint256 |}.
Proof.
  intros Hx. unfold calculateSlippageBounds, ALLOWED_SLIPPAGE, BN.Zero.
  rewrite div_floor by lia. cbn [bind].
  replace (x * 200) with (x * 200) by ring.
  replace 10000 with (50 * 200) by reflexivity.
  rewrite Z.div_mul_cancel_r by lia.
  assert (Hoff : 0 <= x / 50 <= x).
  { split; [apply Z.div_pos; lia |].
    apply Z.div_le_upper_bound; lia. }
  destruct (Z.ltb_spec (x - x / 50) 0); [lia |].
  destruct (Z.gtb_spec (x + x / 50) BN.MaxUint256);
    do 2 f_equal; lia.
Qed.

Section ValidatorInvariants.

Variable TOKEN_SYMBOLS : TokenSymbols.
Variable parseUnits : string -> Z -> M Z.

Lemma validateBuy_run (ctx : Context) (s : string) (v a : Z) :
  parseUnits s 18 = Ok v ->
  calculateAmount TOKEN_SYMBOLS
    ctx.(selectedTokenSymbol) TOKEN_SYMBOLS.(SOCKS) v
    ctx.(reserveSOCKSETH) ctx.(reserveSOCKSToken)
    ctx.(reserveSelectedTokenETH) ctx.(reserveSelectedTokenToken) = Ok a ->
  validateBuy TOKEN_SYMBOLS parseUnits ctx s
  = Ok {| BuyQuote.inputValue := a;
          BuyQuote.maximumInputValue := Z.min (a + a / 50) BN.MaxUint256;
          BuyQuote.outputValue := v;
          BuyQuote.error :=
            firstFailed
              (buyChecks ctx (Z.min (a + a / 50) BN.MaxUint256)) |}.
Proof.
  intros Hp Hr.
  pose proof (calculateAmount_result_range_aux _ _ _ _ _ _ _ _ _ Hr) as Ha.
  unfold validateBuy. rewrite Hp. cbn [try_rethrow bind].
  rewrite Hr. cbn [try_rethrow bind].
  rewrite slippage_band_of_valid by lia. cbn [try_rethrow bind maximum].
  unfold firstFailed, buyChecks. cbn [find snd fst].
  destruct (present_and_lt (balanceETH ctx) MIN_ETH_GAS);
    destruct (present_and_lt (balanceSelectedToken ctx) _);
    destruct (selectedTokenSymbol ctx =? "ETH")%string;
    destruct (present_and_lt (allowanceSelectedToken ctx) _);
    reflexivity.
Qed.

Lemma validateSell_run (ctx : Context) (s : string) (v a bE bS aS : Z) :
  parseUnits s 18 = Ok v ->
  calculateAmount TOKEN_SYMBOLS
    TOKEN_SYMBOLS.(SOCKS) ctx.(selectedTokenSymbol) v
    ctx.(reserveSOCKSETH) ctx.(reserveSOCKSToken)
    ctx.(reserveSelectedTokenETH) ctx.(reserveSelectedTokenToken) = Ok a ->
  ctx.(balanceETH) = Some bE ->
  ctx.(balanceSOCKS) = Some bS ->
  ctx.(allowanceSOCKS) = Some aS ->
  validateSell TOKEN_SYMBOLS parseUnits ctx s
  = Ok {| SellQuote.inputValue := v;
          SellQuote.outputValue := a;
          SellQuote.minimumOutputValue := a - a / 50;
          SellQuote.error := firstFailed (sellChecks bE bS aS v) |}.
Proof.
  intros Hp Hr HbE HbS HaS.
  pose proof (calculateAmount_result_range_aux _ _ _ _ _ _ _ _ _ Hr) as Ha.
  unfold validateSell. rewrite Hp. cbn [try_rethrow bind].
  rewrite Hr. cbn [try_rethrow bind].
  rewrite slippage_band_of_valid by lia. cbn [try_rethrow bind minimum].
  unfold deref_lt. rewrite HbE, HbS, HaS. cbn [BN.recv try_rethrow bind].
  unfold firstFailed, sellChecks. cbn [find snd fst].
  destruct (bE <? MIN_ETH_GAS); destruct (bS <? v); destruct (aS <? v);
    reflexivity.
Qed.

(** A sell whose route resolves and that misses one of its three data
    throws at the first dereference. *)
Lemma validateSell_unloaded (ctx : Context) (s : string) (v a : Z) :
  parseUnits s 18 = Ok v ->
  calculateAmount TOKEN_SYMBOLS
    TOKEN_SYMBOLS.(SOCKS) ctx.(selectedTokenSymbol) v
    ctx.(reserveSOCKSETH) ctx.(reserveSOCKSToken)
    ctx.(reserveSelectedTokenETH) ctx.(reserveSelectedTokenToken) = Ok a ->
  ctx.(balanceETH) = None \/ ctx.(balanceSOCKS) = None
  \/ ctx.(allowanceSOCKS) = None ->
  validateSell TOKEN_SYMBOLS parseUnits ctx s = Throw (uncoded TypeError).
Proof.
  intros Hp Hr Habs.
  pose proof (calculateAmount_result_range_aux _ _ _ _ _ _ _ _ _ Hr) as Ha.
  unfold validateSell. rewrite Hp. cbn [try_rethrow bind].
  rewrite Hr. cbn [try_rethrow bind].
  rewrite slippage_band_of_valid by lia. cbn [try_rethrow bind].
  unfold deref_lt.
  destruct (balanceETH ctx) as [bE |]; [| reflexivity].
  destruct (balanceSOCKS ctx) as [bS |]; [| reflexivity].
  destruct (allowanceSOCKS ctx) as [aS |]; [| reflexivity].
  destruct Habs as [H | [H | H]]; discriminate H.
Qed.

(** Every quote a buy returns is consistent: its output is the parsed
    amount, its input lies strictly between zero and [MaxUint256], and its
    maximum is the input plus a fiftieth, capped at [MaxUint256], hence never
    below the input. *)
Theorem validateBuy_quote_bounds (ctx : Context) (s : string) (q : BuyQuote.t) :
  validateBuy TOKEN_SYMBOLS parseUnits ctx s = Ok q ->
  parseUnits s 18 = Ok q.(BuyQuote.outputValue) /\
  0 < q.(BuyQuote.inputValue) < BN.MaxUint256 /\
  q.(BuyQuote.maximumInputValue)
    = Z.min (q.(BuyQuote.inputValue) + q.(BuyQuote.inputValue) / 50)
            BN.MaxUint256 /\
  q.(BuyQuote.inputValue) <= q.(BuyQuote.maximumInputValue).
Proof.
  intros Hrun.
  destruct (parseUnits s 18) as [v | e] eqn:Hp;
    [| rewrite (validateBuy_parse_failure _ _ _ _ _ Hp) in Hrun;
       discriminate].
  destruct (calculateAmount TOKEN_SYMBOLS
              ctx.(selectedTokenSymbol) TOKEN_SYMBOLS.(SOCKS) v
              ctx.(reserveSOCKSETH) ctx.(reserveSOCKSToken)
              ctx.(reserveSelectedTokenETH) ctx.(reserveSelectedTokenToken))
    as [a | c] eqn:Hr;
    [| rewrite (validateBuy_route_failure _ _ _ _ _ _ Hp Hr) in Hrun;
       discriminate].
  pose proof (calculateAmount_result_range_aux _ _ _ _ _ _ _ _ _ Hr) as Ha.
  rewrite (validateBuy_run _ _ _ _ Hp Hr) in Hrun.
  injection Hrun as <-.
  cbn [BuyQuote.inputValue BuyQuote.maximumInputValue BuyQuote.outputValue].
  assert (0 <= a / 50) by (apply Z.div_pos; lia).
  split; [reflexivity |]. split; [exact Ha |]. split; [reflexivity | lia].
Qed.

(** Every quote a sell returns is consistent: its input is the parsed
    amount, its output lies strictly between zero and [MaxUint256], its
    minimum is the output less a fiftieth, between zero and the output, and
    the three data the checks read were loaded. *)
Theorem validateSell_quote_bounds (ctx : Context) (s : string) (q : SellQuote.t) :
  validateSell TOKEN_SYMBOLS parseUnits ctx s = Ok q ->
  parseUnits s 18 = Ok q.(SellQuote.inputValue) /\
  0 < q.(SellQuote.outputValue) < BN.MaxUint256 /\
  q.(SellQuote.minimumOutputValue)
    = q.(SellQuote.outputValue) - q.(SellQuote.outputValue) / 50 /\
  0 <= q.(SellQuote.minimumOutputValue) <= q.(SellQuote.outputValue) /\
  ctx.(balanceETH) <> None /\ ctx.(balanceSOCKS) <> None /\
  ctx.(allowanceSOCKS) <> None.
Proof.
  intros Hrun.
  destruct (parseUnits s 18) as [v | e] eqn:Hp;
    [| unfold validateSell in Hrun; rewrite Hp in Hrun; discriminate].
  destruct (calculateAmount TOKEN_SYMBOLS
              TOKEN_SYMBOLS.(SOCKS) ctx.(selectedTokenSymbol) v
              ctx.(reserveSOCKSETH) ctx.(reserveSOCKSToken)
              ctx.(reserveSelectedTokenETH) ctx.(reserveSelectedTokenToken))
    as [a | c] eqn:Hr;
    [| rewrite (validateSell_route_failure _ _ _ _ _ _ Hp Hr) in Hrun;
       discriminate].
  pose proof (calculateAmount_result_range_aux _ _ _ _ _ _ _ _ _ Hr) as Ha.
  destruct (balanceETH ctx) as [bE |] eqn:HbE;
    [| rewrite (validateSell_unloaded _ _ _ _ Hp Hr) in Hrun;
       [discriminate | now left]].
  destruct (balanceSOCKS ctx) as [bS |] eqn:HbS;
    [| rewrite (validateSell_unloaded _ _ _ _ Hp Hr) in Hrun;
       [discriminate | now right; left]].
  destruct (allowanceSOCKS ctx) as [aS |] eqn:HaS;
    [| rewrite (validateSell_unloaded _ _ _ _ Hp Hr) in Hrun;
       [discriminate | now right; right]].
  rewrite (validateSell_run _ _ _ _ _ _ _ Hp Hr HbE HbS HaS) in Hrun.
  injection Hrun as <-.
  cbn [SellQuote.inputValue SellQuote.minimumOutputValue
       SellQuote.outputValue].
  assert (0 <= a / 50 <= a).
  { split; [apply Z.div_pos; lia |].
    apply Z.div_le_upper_bound; lia. }
  split; [reflexivity |]. split; [exact Ha |]. split; [reflexivity |].
  split; [lia |]. repeat split; discriminate.
Qed.

End ValidatorInvariants.

(** *** Which errors can come out *)

Lemma firstFailed_none (checks : list (ErrorKey * bool)) :
  firstFailed checks = None <->
  forall c, In c checks -> snd c = false.
Proof.
  unfold firstFailed. induction checks as [| [k b] rest IH]; cbn [find snd].
  - split; [intros _ c [] | reflexivity].
  - destruct b; cbn [option_map].
    + split; [discriminate |].
      intros H. specialize (H (k, true) (or_introl eq_refl)). discriminate H.
    + rewrite IH. split.
      * intros H c [<- | Hin]; [reflexivity | now apply H].
      * intros H c Hin. apply H. now right.
Qed.

Lemma firstFailed_some (checks : list (ErrorKey * bool)) (e : JsError) :
  firstFailed checks = Some e ->
  exists k, e = new_error k /\ In (k, true) checks.
Proof.
  unfold firstFailed. induction checks as [| [k b] rest IH]; cbn [find snd].
  - discriminate.
  - destruct b; cbn [option_map fst].
    + intros H. injection H as <-. exists k. split; [reflexivity | now left].
    + intros H. destruct (IH H) as [k' [-> Hin]].
      exists k'. split; [reflexivity | now right].
Qed.

Lemma present_and_lt_false (x : JsBN) (y : Z) :
  present_and_lt x y = false <-> forall b, x = Some b -> y <= b.
Proof.
  destruct x as [b |]; cbn [present_and_lt].
  - rewrite Z.ltb_ge. split.
    + intros H b' Hb. injection Hb as <-. exact H.
    + intros H. now apply H.
  - split; [intros _ b Hb; discriminate Hb | reflexivity].
Qed.

Section ValidatorOutcomes.

Variable TOKEN_SYMBOLS : TokenSymbols.
Variable parseUnits : string -> Z -> M Z.

(* The statement of [validateBuy_outcomes], in the form later proofs use. *)
Lemma validateBuy_outcomes_aux (ctx : Context) (s : string) :
  match validateBuy TOKEN_SYMBOLS parseUnits ctx s with
  | Throw e =>
      (e.(code) = Some INVALID_AMOUNT /\ parseUnits s 18 = Throw e.(cause))
      \/ (e.(code) = Some INVALID_TRADE /\ exists v, parseUnits s 18 = Ok v)
  | Ok q =>
      forall e, q.(BuyQuote.error) = Some e ->
                e = new_error INSUFFICIENT_ETH_GAS
                \/ e = new_error INSUFFICIENT_SELECTED_TOKEN_BALANCE
                \/ e = new_error INSUFFICIENT_ALLOWANCE
  end.
Proof.
  destruct (parseUnits s 18) as [v | c] eqn:Hp.
  - destruct (calculateAmount TOKEN_SYMBOLS
                ctx.(selectedTokenSymbol) TOKEN_SYMBOLS.(SOCKS) v
                ctx.(reserveSOCKSETH) ctx.(reserveSOCKSToken)
                ctx.(reserveSelectedTokenETH) ctx.(reserveSelectedTokenToken))
      as [a | c] eqn:Hr.
    + rewrite (validateBuy_run _ _ _ _ _ _ Hp Hr).
      cbn [BuyQuote.error]. intros e He.
      destruct (firstFailed_some _ _ He) as [k [-> Hin]].
      unfold buyChecks in Hin. cbn [In] in Hin.
      destruct Hin as [H | [H | [H | []]]]; injection H as <-; auto.
    + rewrite (validateBuy_route_failure _ _ _ _ _ _ Hp Hr).
      right. split; [reflexivity | now exists v].
  - rewrite (validateBuy_parse_failure _ _ _ _ _ Hp).
    left. split; reflexivity.
Qed.

(** A buy never throws anything but an error coded [INVALID_AMOUNT] (the
    parser's) or [INVALID_TRADE] (route resolution's), and the error a
    returned quote carries is one of the three non-breaking ones. *)
Theorem validateBuy_outcomes (ctx : Context) (s : string) :
  match validateBuy TOKEN_SYMBOLS parseUnits ctx s with
  | Throw e =>
      (e.(code) = Some INVALID_AMOUNT /\ parseUnits s 18 = Throw e.(cause))
      \/ (e.(code) = Some INVALID_TRADE /\ exists v, parseUnits s 18 = Ok v)
  | Ok q =>
      forall e, q.(BuyQuote.error) = Some e ->
                e = new_error INSUFFICIENT_ETH_GAS
                \/ e = new_error INSUFFICIENT_SELECTED_TOKEN_BALANCE
                \/ e = new_error INSUFFICIENT_ALLOWANCE
  end.
Proof. apply validateBuy_outcomes_aux. Qed.

(* The statement of [validateSell_outcomes], in the form later proofs use. *)
Lemma validateSell_outcomes_aux (ctx : Context) (s : string) :
  match validateSell TOKEN_SYMBOLS parseUnits ctx s with
  | Throw e =>
      (e.(code) = Some INVALID_AMOUNT /\ parseUnits s 18 = Throw e.(cause))
      \/ (e.(code) = Some INVALID_EXCHANGE /\ exists v, parseUnits s 18 = Ok v)
      \/ (e = uncoded TypeError
          /\ (ctx.(balanceETH) = None \/ ctx.(balanceSOCKS) = None
              \/ ctx.(allowanceSOCKS) = None))
  | Ok q =>
      forall e, q.(SellQuote.error) = Some e ->
                e = new_error INSUFFICIENT_ETH_GAS
                \/ e = new_error INSUFFICIENT_SELECTED_TOKEN_BALANCE
                \/ e = new_error INSUFFICIENT_ALLOWANCE
  end.
Proof.
  destruct (parseUnits s 18) as [v | c] eqn:Hp.
  - destruct (calculateAmount TOKEN_SYMBOLS
                TOKEN_SYMBOLS.(SOCKS) ctx.(selectedTokenSymbol) v
                ctx.(reserveSOCKSETH) ctx.(reserveSOCKSToken)
                ctx.(reserveSelectedTokenETH) ctx.(reserveSelectedTokenToken))
      as [a | c] eqn:Hr.
    + destruct (balanceETH ctx) as [bE |] eqn:HbE;
        [| rewrite (validateSell_unloaded _ _ _ _ _ _ Hp Hr) by (now left);
           right; right; split; [reflexivity | now left]].
      destruct (balanceSOCKS ctx) as [bS |] eqn:HbS;
        [| rewrite (validateSell_unloaded _ _ _ _ _ _ Hp Hr)
             by (now right; left);
           right; right; split; [reflexivity | now right; left]].
      destruct (allowanceSOCKS ctx) as [aS |] eqn:HaS;
        [| rewrite (validateSell_unloaded _ _ _ _ _ _ Hp Hr)
             by (now right; right);
           right; right; split; [reflexivity | now right; right]].
      rewrite (validateSell_run _ _ _ _ _ _ _ _ _ Hp Hr HbE HbS HaS).
      cbn [SellQuote.error]. intros e He.
      destruct (firstFailed_some _ _ He) as [k [-> Hin]].
      unfold sellChecks in Hin. cbn [In] in Hin.
      destruct Hin as [H | [H | [H | []]]]; injection H as <-; auto.
    + rewrite (validateSell_route_failure _ _ _ _ _ _ Hp Hr).
      right. left. split; [reflexivity | now exists v].
  - unfold validateSell. rewrite Hp. cbn [try_rethrow bind].
    left. split; reflexivity.
Qed.

(** A sell throws an error coded [INVALID_AMOUNT], one coded
    [INVALID_EXCHANGE], or, only when one of its three data is not loaded, an
    uncoded TypeError; the error a returned quote carries is one of the three
    non-breaking ones. *)
Theorem validateSell_outcomes (ctx : Context) (s : string) :
  match validateSell TOKEN_SYMBOLS parseUnits ctx s with
  | Throw e =>
      (e.(code) = Some INVALID_AMOUNT /\ parseUnits s 18 = Throw e.(cause))
      \/ (e.(code) = Some INVALID_EXCHANGE /\ exists v, parseUnits s 18 = Ok v)
      \/ (e = uncoded TypeError
          /\ (ctx.(balanceETH) = None \/ ctx.(balanceSOCKS) = None
              \/ ctx.(allowanceSOCKS) = None))
  | Ok q =>
      forall e, q.(SellQuote.error) = Some e ->
                e = new_error INSUFFICIENT_ETH_GAS
                \/ e = new_error INSUFFICIENT_SELECTED_TOKEN_BALANCE
                \/ e = new_error INSUFFICIENT_ALLOWANCE
  end.
Proof. apply validateSell_outcomes_aux. Qed.

(** A buy quote is free of error exactly when the gas balance, if loaded, is
    at least 0.01 ETH, the paying balance, if loaded, covers the slippage
    maximum, and, unless ETH is selected, so does the allowance, if loaded. *)
Theorem validateBuy_clean_quote (ctx : Context) (s : string) (q : BuyQuote.t) :
  validateBuy TOKEN_SYMBOLS parseUnits ctx s = Ok q ->
  (q.(BuyQuote.error) = None <->
   (forall b, ctx.(balanceETH) = Some b -> MIN_ETH_GAS <= b) /\
   (forall b, ctx.(balanceSelectedToken) = Some b ->
              q.(BuyQuote.maximumInputValue) <= b) /\
   (ctx.(selectedTokenSymbol) <> "ETH"%string ->
    forall a, ctx.(allowanceSelectedToken) = Some a ->
              q.(BuyQuote.maximumInputValue) <= a)).
Proof.
  intros Hrun.
  destruct (parseUnits s 18) as [v | e] eqn:Hp;
    [| rewrite (validateBuy_parse_failure _ _ _ _ _ Hp) in Hrun;
       discriminate].
  destruct (calculateAmount TOKEN_SYMBOLS
              ctx.(selectedTokenSymbol) TOKEN_SYMBOLS.(SOCKS) v
              ctx.(reserveSOCKSETH) ctx.(reserveSOCKSToken)
              ctx.(reserveSelectedTokenETH) ctx.(reserveSelectedTokenToken))
    as [a | c] eqn:Hr;
    [| rewrite (validateBuy_route_failure _ _ _ _ _ _ Hp Hr) in Hrun;
       discriminate].
  rewrite (validateBuy_run _ _ _ _ _ _ Hp Hr) in Hrun.
  injection Hrun as <-.
  cbn [BuyQuote.error BuyQuote.maximumInputValue].
  set (mx := Z.min (a + a / 50) BN.MaxUint256).
  rewrite firstFailed_none. unfold buyChecks.
  rewrite <- !present_and_lt_false.
  split.
  - intros H.
    split; [exact (H (_, _) (or_introl eq_refl)) |].
    split; [exact (H (_, _) (or_intror (or_introl eq_refl))) |].
    intros Hsel.
    specialize (H (_, _) (or_intror (or_intror (or_introl eq_refl)))).
    cbn [snd] in H.
    destruct (String.eqb_spec (selectedTokenSymbol ctx) "ETH");
      [contradiction | exact H].
  - intros [Hgas [Hbal Hall]] c [<- | [<- | [<- | []]]]; cbn [snd];
      [exact Hgas | exact Hbal |].
    destruct (String.eqb_spec (selectedTokenSymbol ctx) "ETH") as [E | NE];
      [reflexivity | exact (Hall NE)].
Qed.

(** A sell quote is free of error exactly when the gas balance is at least
    0.01 ETH and both the SOCKS balance and the SOCKS allowance cover the
    amount being sold itself. *)
Theorem validateSell_clean_quote
    (ctx : Context) (s : string) (q : SellQuote.t) (bE bS aS : Z) :
  validateSell TOKEN_SYMBOLS parseUnits ctx s = Ok q ->
  ctx.(balanceETH) = Some bE ->
  ctx.(balanceSOCKS) = Some bS ->
  ctx.(allowanceSOCKS) = Some aS ->
  (q.(SellQuote.error) = None <->
   MIN_ETH_GAS <= bE /\ q.(SellQuote.inputValue) <= bS
   /\ q.(SellQuote.inputValue) <= aS).
Proof.
  intros Hrun HbE HbS HaS.
  destruct (parseUnits s 18) as [v | e] eqn:Hp;
    [| unfold validateSell in Hrun; rewrite Hp in Hrun; discriminate].
  destruct (calculateAmount TOKEN_SYMBOLS
              TOKEN_SYMBOLS.(SOCKS) ctx.(selectedTokenSymbol) v
              ctx.(reserveSOCKSETH) ctx.(reserveSOCKSToken)
              ctx.(reserveSelectedTokenETH) ctx.(reserveSelectedTokenToken))
    as [a | c] eqn:Hr;
    [| rewrite (validateSell_route_failure _ _ _ _ _ _ Hp Hr) in Hrun;
       discriminate].
  rewrite (validateSell_run _ _ _ _ _ _ _ _ _ Hp Hr HbE HbS HaS) in Hrun.
  injection Hrun as <-.
  cbn [SellQuote.error SellQuote.inputValue].
  rewrite firstFailed_none. unfold sellChecks.
  split.
  - intros H.
    pose proof (H (_, _) (or_introl eq_refl)) as H1.
    pose proof (H (_, _) (or_intror (or_introl eq_refl))) as H2.
    pose proof (H (_, _) (or_intror (or_intror (or_introl eq_refl)))) as H3.
    cbn [snd] in H1, H2, H3.
    apply Z.ltb_ge in H1, H2, H3. auto.
  - intros [H1 [H2 H3]] c [<- | [<- | [<- | []]]]; cbn [snd];
      apply Z.ltb_ge; assumption.
Qed.

End ValidatorOutcomes.

(** *** Degenerate amounts *)

Lemma forward_quote_of_zero_fails (r_in r_out : JsBN) :
  exists c,
    (amount <- calculateEtherTokenOutputFromInput 0 r_in r_out ;;
     guardAmount amount) = Throw c.
Proof.
  unfold calculateEtherTokenOutputFromInput.
  destruct r_out as [o |]; [| now eexists].
  destruct r_in as [i |]; [| now eexists].
  cbn [BN.arg BN.recv bind]. unfold BN.div.
  destruct (Z.eqb_spec (i * 1000 + 0 * 997) 0) as [E | NE]; [now eexists |].
  cbn [bind Z.mul]. rewrite Z.quot_0_l by exact NE. now eexists.
Qed.

Lemma present_quote_cause_forward (v i o : Z) (c : Cause) :
  calculateEtherTokenOutputFromInput v (Some i) (Some o) = Throw c ->
  c = DivisionByZero.
Proof.
  unfold calculateEtherTokenOutputFromInput. cbn [BN.arg BN.recv bind].
  unfold BN.div. destruct (_ =? 0); [| discriminate].
  intros H. now injection H as <-.
Qed.

Lemma present_quote_cause_reverse (v i o : Z) (c : Cause) :
  calculateEtherTokenInputFromOutput v (Some i) (Some o) = Throw c ->
  c = DivisionByZero.
Proof.
  unfold calculateEtherTokenInputFromOutput. cbn [BN.recv bind].
  unfold BN.div. destruct (_ =? 0); [| discriminate].
  intros H. now injection H as <-.
Qed.

Lemma guarded_quote_cause (quote : M Z) (c : Cause) :
  (forall c', quote = Throw c' -> c' = DivisionByZero) ->
  (amount <- quote ;; guardAmount amount) = Throw c ->
  c = PlainError \/ c = DivisionByZero.
Proof.
  intros Hq. destruct quote as [a | c0]; cbn [bind].
  - unfold guardAmount. destruct (_ || _); [| discriminate].
    intros H. injection H as <-. now left.
  - intros H. injection H as <-. right. now apply Hq.
Qed.

Lemma two_hop_cause (first : M Z) (second : Z -> M Z) (c : Cause) :
  (forall c', first = Throw c' -> c' = DivisionByZero) ->
  (forall x c', second x = Throw c' -> c' = DivisionByZero) ->
  (intermediateValue <- first ;;
   intermediateValue <- guardAmount intermediateValue ;;
   amount <- second intermediateValue ;;
   guardAmount amount) = Throw c ->
  c = PlainError \/ c = DivisionByZero.
Proof.
  intros H1 H2. destruct first as [x | c0]; cbn [bind].
  - destruct (guardAmount x) as [y | c1] eqn:Hg; cbn [bind].
    + apply guarded_quote_cause. apply H2.
    + unfold guardAmount in Hg. destruct (_ || _); [| discriminate].
      injection Hg as <-. intros Hc. injection Hc as <-. now left.
  - intros Hc. injection Hc as <-. right. now apply H1.
Qed.

Section DegenerateAmounts.

Variable TOKEN_SYMBOLS : TokenSymbols.
Variable parseUnits : string -> Z -> M Z.

(** Selling nothing is always refused: whatever the reserves and balances,
    loaded or not, a sell of a parsed amount of zero for anything but SOCKS
    itself throws with the code [INVALID_EXCHANGE]. *)
Theorem validateSell_zero_refused (ctx : Context) (s : string) :
  parseUnits s 18 = Ok 0 ->
  ctx.(selectedTokenSymbol) <> TOKEN_SYMBOLS.(SOCKS) ->
  exists c,
    validateSell TOKEN_SYMBOLS parseUnits ctx s
    = Throw (with_code INVALID_EXCHANGE c).
Proof.
  intros Hp Hsel.
  assert (Hroute : exists c,
             calculateAmount TOKEN_SYMBOLS
               TOKEN_SYMBOLS.(SOCKS) ctx.(selectedTokenSymbol) 0
               ctx.(reserveSOCKSETH) ctx.(reserveSOCKSToken)
               ctx.(reserveSelectedTokenETH) ctx.(reserveSelectedTokenToken)
             = Throw c).
  { unfold calculateAmount.
    destruct (String.eqb_spec (selectedTokenSymbol ctx) (SOCKS TOKEN_SYMBOLS))
      as [E | _]; [contradiction |].
    rewrite Bool.andb_false_r, String.eqb_refl. cbn [andb].
    destruct (selectedTokenSymbol ctx =? ETH TOKEN_SYMBOLS)%string.
    - apply forward_quote_of_zero_fails.
    - destruct (forward_quote_of_zero_fails
                  (reserveSOCKSToken ctx) (reserveSOCKSETH ctx)) as [c Hc].
      exists c.
      destruct (calculateEtherTokenOutputFromInput 0 _ _) as [x | e];
        cbn [bind] in *; [rewrite Hc | injection Hc as <-]; reflexivity. }
  destruct Hroute as [c Hc]. exists c.
  exact (validateSell_route_failure _ _ _ _ _ _ Hp Hc).
Qed.

(** Buying nothing is not refused: with ETH selected and a loaded pool whose
    SOCKS reserve is not zero, a buy of a parsed amount of zero returns a
    quote that asks for one unit. *)
Theorem validateBuy_zero_costs_one
    (ctx : Context) (s : string) (r_eth r_socks : Z) :
  parseUnits s 18 = Ok 0 ->
  ctx.(selectedTokenSymbol) = TOKEN_SYMBOLS.(ETH) ->
  ctx.(reserveSOCKSETH) = Some r_eth ->
  ctx.(reserveSOCKSToken) = Some r_socks ->
  r_socks <> 0 ->
  exists q,
    validateBuy TOKEN_SYMBOLS parseUnits ctx s = Ok q /\
    q.(BuyQuote.inputValue) = 1 /\
    q.(BuyQuote.maximumInputValue) = 1 /\
    q.(BuyQuote.outputValue) = 0.
Proof.
  intros Hp Hsel HrE HrT Hnz.
  assert (Hroute :
            calculateAmount TOKEN_SYMBOLS
              ctx.(selectedTokenSymbol) TOKEN_SYMBOLS.(SOCKS) 0
              ctx.(reserveSOCKSETH) ctx.(reserveSOCKSToken)
              ctx.(reserveSelectedTokenETH) ctx.(reserveSelectedTokenToken)
            = Ok 1).
  { unfold calculateAmount. rewrite Hsel, !String.eqb_refl, HrE, HrT.
    cbn [andb]. unfold calculateEtherTokenInputFromOutput.
    cbn [BN.recv bind]. rewrite div_nonzero by lia. cbn [bind].
    replace (r_eth * 0 * 1000) with 0 by ring.
    rewrite Z.quot_0_l by lia. reflexivity. }
  eexists. split; [exact (validateBuy_run _ _ _ _ _ _ Hp Hroute) |].
  repeat split.
Qed.

(** The route guard does not reject every negative amount: a direct buy of a
    negative amount whose scaled magnitude stays below the divisor of the
    formula truncates to a quotient of zero and is quoted one unit. *)
Theorem calculateAmount_negative_buy_passes
    (SOCKSAmount r_eth r_socks : Z) (r3 r4 : JsBN) :
  SOCKSAmount < 0 -> 0 <= r_eth -> 0 <= r_socks ->
  r_eth * (- SOCKSAmount) * 1000 < (r_socks - SOCKSAmount) * 997 ->
  calculateAmount TOKEN_SYMBOLS TOKEN_SYMBOLS.(ETH) TOKEN_SYMBOLS.(SOCKS)
    SOCKSAmount (Some r_eth) (Some r_socks) r3 r4 = Ok 1.
Proof.
  intros Hneg HrE HrT Hsmall.
  unfold calculateAmount. rewrite !String.eqb_refl. cbn [andb].
  unfold calculateEtherTokenInputFromOutput. cbn [BN.recv bind].
  rewrite div_nonzero by lia. cbn [bind].
  replace (r_eth * SOCKSAmount * 1000)
    with (- (r_eth * (- SOCKSAmount) * 1000)) by ring.
  rewrite Z.quot_opp_l by lia.
  rewrite Z.quot_small by nia.
  reflexivity.
Qed.

(** Once the component is ready with a connected account, no validator
    fails on missing data: a sell throws only coded errors, and route
    resolution, in either direction, fails only through its guard or a
    division by zero. *)
Theorem ready_rules_out_missing_data
    (ctx : Context) (rates : RateState) (s : string) :
  ready false ctx rates = true ->
  TOKEN_SYMBOLS.(ETH) = "ETH"%string ->
  (forall e,
      validateSell TOKEN_SYMBOLS parseUnits ctx s = Throw e ->
      e.(code) = Some INVALID_AMOUNT
      \/ (e.(code) = Some INVALID_EXCHANGE
          /\ (e.(cause) = PlainError \/ e.(cause) = DivisionByZero))) /\
  (forall e,
      validateBuy TOKEN_SYMBOLS parseUnits ctx s = Throw e ->
      e.(code) = Some INVALID_AMOUNT
      \/ (e.(code) = Some INVALID_TRADE
          /\ (e.(cause) = PlainError \/ e.(cause) = DivisionByZero))).
Proof.
  intros Hready Heth. unfold ready in Hready. cbn [orb] in Hready.
  repeat (apply Bool.andb_true_iff in Hready as [Hready ?]).
  destruct (allowanceSOCKS ctx) as [aS |] eqn:HaS; [| discriminate].
  destruct (balanceETH ctx) as [bE |] eqn:HbE; [| discriminate].
  destruct (balanceSOCKS ctx) as [bS |] eqn:HbS; [| discriminate].
  destruct (reserveSOCKSETH ctx) as [r1 |] eqn:Hr1; [| discriminate].
  destruct (reserveSOCKSToken ctx) as [r2 |] eqn:Hr2; [| discriminate].
  assert (Hsel : (selectedTokenSymbol ctx =? "ETH")%string = false ->
                 exists r3 r4, reserveSelectedTokenETH ctx = Some r3
                               /\ reserveSelectedTokenToken ctx = Some r4).
  { intros E. rewrite E in *. cbn [orb] in *.
    destruct (reserveSelectedTokenETH ctx) as [r3 |]; [| discriminate].
    destruct (reserveSelectedTokenToken ctx) as [r4 |]; [| discriminate].
    now exists r3, r4. }
  assert (Hroute : forall i o v c,
             (i = selectedTokenSymbol ctx /\ o = SOCKS TOKEN_SYMBOLS)
             \/ (i = SOCKS TOKEN_SYMBOLS /\ o = selectedTokenSymbol ctx) ->
             calculateAmount TOKEN_SYMBOLS i o v (Some r1) (Some r2)
               (reserveSelectedTokenETH ctx) (reserveSelectedTokenToken ctx)
             = Throw c ->
             c = PlainError \/ c = DivisionByZero).
  { intros i o v c Hio. unfold calculateAmount.
    destruct ((i =? ETH TOKEN_SYMBOLS)%string
              && (o =? SOCKS TOKEN_SYMBOLS)%string) eqn:E1.
    { apply guarded_quote_cause. apply present_quote_cause_reverse. }
    destruct ((i =? SOCKS TOKEN_SYMBOLS)%string
              && (o =? ETH TOKEN_SYMBOLS)%string) eqn:E2.
    { apply guarded_quote_cause. apply present_quote_cause_forward. }
    assert (Hne : (selectedTokenSymbol ctx =? "ETH")%string = false).
    { destruct (String.eqb_spec (selectedTokenSymbol ctx) "ETH") as [E |];
        [| reflexivity].
      rewrite <- Heth in E.
      destruct Hio as [[-> ->] | [-> ->]].
      - rewrite E, !String.eqb_refl in E1. discriminate E1.
      - rewrite E, !String.eqb_refl in E2. discriminate E2. }
    destruct (Hsel Hne) as [r3 [r4 [-> ->]]].
    destruct (o =? SOCKS TOKEN_SYMBOLS)%string.
    - apply (two_hop_cause _
               (fun x => calculateEtherTokenInputFromOutput
                           x (Some r4) (Some r3))).
      + apply present_quote_cause_reverse.
      + intros x. apply present_quote_cause_reverse.
    - apply (two_hop_cause _
               (fun x => calculateEtherTokenOutputFromInput
                           x (Some r3) (Some r4))).
      + apply present_quote_cause_forward.
      + intros x. apply present_quote_cause_forward. }
  split; intros e He.
  - pose proof (validateSell_outcomes_aux TOKEN_SYMBOLS parseUnits ctx s) as Hout.
    rewrite He in Hout.
    destruct Hout as [[Hc _] | [[Hc [v Hp]] | [_ Habs]]].
    + now left.
    + right. split; [exact Hc |].
      destruct (calculateAmount TOKEN_SYMBOLS
                  TOKEN_SYMBOLS.(SOCKS) ctx.(selectedTokenSymbol) v
                  ctx.(reserveSOCKSETH) ctx.(reserveSOCKSToken)
                  ctx.(reserveSelectedTokenETH)
                  ctx.(reserveSelectedTokenToken)) as [a | c] eqn:Hr.
      * rewrite (validateSell_run _ _ _ _ _ _ _ _ _ Hp Hr HbE HbS HaS) in He.
        discriminate He.
      * rewrite (validateSell_route_failure _ _ _ _ _ _ Hp Hr) in He.
        injection He as <-. cbn [cause].
        rewrite Hr1, Hr2 in Hr. revert Hr. apply Hroute. now right.
    + rewrite HbE, HbS, HaS in Habs.
      destruct Habs as [H' | [H' | H']]; discriminate H'.
  - pose proof (validateBuy_outcomes_aux TOKEN_SYMBOLS parseUnits ctx s) as Hout.
    rewrite He in Hout.
    destruct Hout as [[Hc _] | [Hc [v Hp]]].
    + now left.
    + right. split; [exact Hc |].
      destruct (calculateAmount TOKEN_SYMBOLS
                  ctx.(selectedTokenSymbol) TOKEN_SYMBOLS.(SOCKS) v
                  ctx.(reserveSOCKSETH) ctx.(reserveSOCKSToken)
                  ctx.(reserveSelectedTokenETH)
                  ctx.(reserveSelectedTokenToken)) as [a | c] eqn:Hr.
      * rewrite (validateBuy_run _ _ _ _ _ _ Hp Hr) in He. discriminate He.
      * rewrite (validateBuy_route_failure _ _ _ _ _ _ Hp Hr) in He.
        injection He as <-. cbn [cause].
        rewrite Hr1, Hr2 in Hr. revert Hr. apply Hroute. now left.
Qed.

End DegenerateAmounts.

(** ** Exchange rates *)

(* The statement of [getExchangeRate_invert_swaps], in the form later proofs use. *)
Lemma getExchangeRate_invert_swaps_aux
    (inputValue outputValue : JsBN) (invert : bool) :
  getExchangeRate inputValue outputValue invert
  = getExchangeRate outputValue inputValue (negb invert).
Proof.
  destruct inputValue, outputValue, invert; reflexivity.
Qed.

(** Inverting the rate is the same as swapping the two reserves, whether
    they are loaded or not. *)
Theorem getExchangeRate_invert_swaps
    (inputValue outputValue : JsBN) (invert : bool) :
  getExchangeRate inputValue outputValue invert
  = getExchangeRate outputValue inputValue (negb invert).
Proof. apply getExchangeRate_invert_swaps_aux. Qed.

(* The statement of [getExchangeRate_floor], in the form later proofs use. *)
Lemma getExchangeRate_floor_aux (i o : Z) :
  0 < i -> 0 <= o ->
  getExchangeRate (Some i) (Some o) false = Ok (Some (o * 10 ^ 18 / i)) /\
  (o * 10 ^ 18 / i = 0 <-> o * 10 ^ 18 < i).
Proof.
  intros Hi Ho. split.
  - unfold getExchangeRate. rewrite div_floor by lia. cbn [bind].
    rewrite div_nonzero by lia. cbn [bind].
    rewrite Z.quot_mul by lia. reflexivity.
  - split.
    + intros Hz. apply Z.div_small_iff in Hz; lia.
    + intros Hlt. apply Z.div_small. lia.
Qed.

(** On a positive input reserve the rate is the output reserve scaled by
    [10 ^ 18] over the input reserve, rounded down: the rescaling between
    the two 18-decimal precisions changes nothing.  The rate is zero exactly
    when the scaled output reserve is below the input reserve. *)
Theorem getExchangeRate_floor (i o : Z) :
  0 < i -> 0 <= o ->
  getExchangeRate (Some i) (Some o) false = Ok (Some (o * 10 ^ 18 / i)) /\
  (o * 10 ^ 18 / i = 0 <-> o * 10 ^ 18 < i).
Proof. intros. eapply getExchangeRate_floor_aux; eassumption. Qed.

Lemma getExchangeRate_floor_witness :
  getExchangeRate (Some (100 * 10 ^ 18)) (Some (20000 * 10 ^ 18)) false
    = Ok (Some (20000 * 10 ^ 18 * 10 ^ 18 / (100 * 10 ^ 18))) /\
  (20000 * 10 ^ 18 * 10 ^ 18 / (100 * 10 ^ 18) = 0
   <-> 20000 * 10 ^ 18 * 10 ^ 18 < 100 * 10 ^ 18).
Proof. apply getExchangeRate_floor; lia. Defined.

(** On positive reserves a rate and its inverse are both produced, neither
    is negative, and their product never exceeds one (in 36 decimals):
    converting there and back never gains. *)
Theorem getExchangeRate_round_trip (i o : Z) :
  0 < i -> 0 < o ->
  exists r r',
    getExchangeRate (Some i) (Some o) false = Ok (Some r) /\
    getExchangeRate (Some i) (Some o) true = Ok (Some r') /\
    0 <= r /\ 0 <= r' /\ r * r' <= 10 ^ 18 * 10 ^ 18.
Proof.
  intros Hi Ho.
  destruct (getExchangeRate_floor_aux i o) as [Hr _]; try lia.
  destruct (getExchangeRate_floor_aux o i) as [Hr' _]; try lia.
  rewrite getExchangeRate_invert_swaps_aux in Hr'. cbn [negb] in Hr'.
  do 2 eexists. split; [exact Hr |]. split.
  { rewrite getExchangeRate_invert_swaps_aux. cbn [negb].
    rewrite getExchangeRate_invert_swaps_aux. exact Hr'. }
  set (F := 10 ^ 18) in *.
  assert (HF : 0 < F) by (unfold F; lia).
  set (r := o * F / i). set (r' := i * F / o).
  assert (H1 : i * r <= o * F) by (apply Z.mul_div_le; lia).
  assert (H2 : o * r' <= i * F) by (apply Z.mul_div_le; lia).
  assert (H0 : 0 <= r) by (apply Z.div_pos; lia).
  assert (H0' : 0 <= r') by (apply Z.div_pos; lia).
  split; [exact H0 |]. split; [exact H0' |].
  (* (i r)(o r') <= (o F)(i F), then cancel the positive i o *)
  assert (Hprod : (i * r) * (o * r') <= (o * F) * (i * F)).
  { apply Z.mul_le_mono_nonneg; try assumption;
      apply Z.mul_nonneg_nonneg; lia. }
  assert (Hio : 0 < i * o) by (apply Z.mul_pos_pos; lia).
  apply Z.mul_le_mono_pos_l with (p := i * o); [exact Hio |].
  replace (i * o * (r * r')) with ((i * r) * (o * r')) by ring.
  replace (i * o * (F * F)) with ((o * F) * (i * F)) by ring.
  exact Hprod.
Qed.

Lemma getExchangeRate_round_trip_witness :
  exists r r',
    getExchangeRate (Some 3) (Some 7) false = Ok (Some r) /\
    getExchangeRate (Some 3) (Some 7) true = Ok (Some r') /\
    0 <= r /\ 0 <= r' /\ r * r' <= 10 ^ 18 * 10 ^ 18.
Proof. apply getExchangeRate_round_trip; lia. Defined.

(** ** The effect that refreshes the USD rates *)

Section EffectFacts.

Variable TOKEN_SYMBOLS : TokenSymbols.

(** Running the effect a second time on unchanged data changes nothing. *)
Theorem exchangeRateEffect_idempotent (ctx : Context) (st : RateState) :
  exchangeRateEffect TOKEN_SYMBOLS ctx
    (exchangeRateEffect TOKEN_SYMBOLS ctx st)
  = exchangeRateEffect TOKEN_SYMBOLS ctx st.
Proof.
  unfold exchangeRateEffect.
  destruct (getExchangeRate (reserveDAIETH ctx) (reserveDAIToken ctx) false)
    as [dai | c]; cbn [bind]; [| reflexivity].
  destruct (selectedTokenSymbol ctx =? ETH TOKEN_SYMBOLS)%string;
    [reflexivity |].
  destruct (getExchangeRate (reserveSelectedTokenETH ctx)
                            (reserveSelectedTokenToken ctx) false)
    as [sel | c]; cbn [bind]; [| reflexivity].
  destruct dai as [d |]; [| destruct st; reflexivity].
  destruct sel as [r |]; [| destruct st; reflexivity].
  destruct (BN.div (d * 10 ^ 18) r) as [q | c]; reflexivity.
Qed.

(** With ETH selected and a loaded DAI pool of positive ETH reserve, the
    effect stores the DAI rate as the ETH rate and leaves the rate of the
    selected token as it was. *)
Theorem exchangeRateEffect_eth_selected
    (ctx : Context) (st : RateState) (daiETH daiToken : Z) :
  ctx.(selectedTokenSymbol) = TOKEN_SYMBOLS.(ETH) ->
  ctx.(reserveDAIETH) = Some daiETH ->
  ctx.(reserveDAIToken) = Some daiToken ->
  0 < daiETH -> 0 <= daiToken ->
  exchangeRateEffect TOKEN_SYMBOLS ctx st
  = {| USDExchangeRateETH := Some (daiToken * 10 ^ 18 / daiETH);
       USDExchangeRateSelectedToken := st.(USDExchangeRateSelectedToken) |}.
Proof.
  intros Hsel HdE HdT Hpos Hnn. unfold exchangeRateEffect.
  rewrite HdE, HdT, Hsel, String.eqb_refl.
  destruct (getExchangeRate_floor_aux daiETH daiToken Hpos Hnn) as [-> _].
  reflexivity.
Qed.

(** With another token selected and both pools loaded, the effect stores the
    DAI rate over the token's rate and leaves the ETH rate as it was,
    provided the token's rate does not truncate to zero. *)
Theorem exchangeRateEffect_token_selected
    (ctx : Context) (st : RateState) (daiETH daiToken selETH selToken : Z) :
  ctx.(selectedTokenSymbol) <> TOKEN_SYMBOLS.(ETH) ->
  ctx.(reserveDAIETH) = Some daiETH ->
  ctx.(reserveDAIToken) = Some daiToken ->
  ctx.(reserveSelectedTokenETH) = Some selETH ->
  ctx.(reserveSelectedTokenToken) = Some selToken ->
  0 < daiETH -> 0 <= daiToken ->
  0 < selETH -> selETH <= selToken * 10 ^ 18 ->
  exchangeRateEffect TOKEN_SYMBOLS ctx st
  = {| USDExchangeRateETH := st.(USDExchangeRateETH);
       USDExchangeRateSelectedToken :=
         Some (daiToken * 10 ^ 18 / daiETH * 10 ^ 18
               / (selToken * 10 ^ 18 / selETH)) |}.
Proof.
  intros Hsel HdE HdT HsE HsT HdPos HdNn HsPos Hrate.
  unfold exchangeRateEffect.
  rewrite HdE, HdT, HsE, HsT.
  destruct (String.eqb_spec (selectedTokenSymbol ctx) (ETH TOKEN_SYMBOLS))
    as [E | _]; [contradiction |].
  destruct (getExchangeRate_floor_aux daiETH daiToken HdPos HdNn) as [-> _].
  assert (HsNn : 0 <= selToken) by lia.
  destruct (getExchangeRate_floor_aux selETH selToken HsPos HsNn) as [-> _].
  cbn [bind].
  assert (0 < selToken * 10 ^ 18 / selETH)
    by (apply Z.div_str_pos; lia).
  assert (0 <= daiToken * 10 ^ 18 / daiETH)
    by (apply Z.div_pos; lia).
  rewrite div_floor by lia. reflexivity.
Qed.

(** With another token selected, a token pool whose scaled token reserve is
    below its ETH reserve has a rate of zero; dividing by it faults, and the
    effect clears both rates, the ETH rate included. *)
Theorem exchangeRateEffect_truncated_rate_clears
    (ctx : Context) (st : RateState) (daiETH daiToken selETH selToken : Z) :
  ctx.(selectedTokenSymbol) <> TOKEN_SYMBOLS.(ETH) ->
  ctx.(reserveDAIETH) = Some daiETH ->
  ctx.(reserveDAIToken) = Some daiToken ->
  ctx.(reserveSelectedTokenETH) = Some selETH ->
  ctx.(reserveSelectedTokenToken) = Some selToken ->
  0 < daiETH -> 0 <= daiToken ->
  0 <= selToken -> selToken * 10 ^ 18 < selETH ->
  exchangeRateEffect TOKEN_SYMBOLS ctx st
  = {| USDExchangeRateETH := None; USDExchangeRateSelectedToken := None |}.
Proof.
  intros Hsel HdE HdT HsE HsT HdPos HdNn HsNn Hrate.
  unfold exchangeRateEffect.
  rewrite HdE, HdT, HsE, HsT.
  destruct (String.eqb_spec (selectedTokenSymbol ctx) (ETH TOKEN_SYMBOLS))
    as [E | _]; [contradiction |].
  destruct (getExchangeRate_floor_aux daiETH daiToken HdPos HdNn) as [-> _].
  assert (HsPos : 0 < selETH) by lia.
  destruct (getExchangeRate_floor_aux selETH selToken HsPos HsNn) as [-> Hz].
  cbn [bind]. rewrite (proj2 Hz Hrate). reflexivity.
Qed.

(** While the DAI pool is not loaded the two modes differ: with ETH selected
    the effect erases the ETH rate, whereas with another token selected,
    whose pool has no zero ETH reserve, it leaves both rates as they were. *)
Theorem exchangeRateEffect_unloaded (ctx : Context) (st : RateState) :
  ctx.(reserveDAIETH) = None \/ ctx.(reserveDAIToken) = None ->
  (ctx.(selectedTokenSymbol) = TOKEN_SYMBOLS.(ETH) ->
   exchangeRateEffect TOKEN_SYMBOLS ctx st
   = {| USDExchangeRateETH := None;
        USDExchangeRateSelectedToken := st.(USDExchangeRateSelectedToken) |})
  /\
  (ctx.(selectedTokenSymbol) <> TOKEN_SYMBOLS.(ETH) ->
   ctx.(reserveSelectedTokenETH) <> Some 0 ->
   exchangeRateEffect TOKEN_SYMBOLS ctx st = st).
Proof.
  intros Habs.
  assert (Hdai : getExchangeRate (reserveDAIETH ctx) (reserveDAIToken ctx)
                                 false = Ok None).
  { destruct Habs as [-> | ->]; [reflexivity |].
    destruct (reserveDAIETH ctx); reflexivity. }
  unfold exchangeRateEffect. rewrite Hdai. cbn [bind]. split.
  - intros ->. rewrite String.eqb_refl. reflexivity.
  - intros Hsel Hnz.
    destruct (String.eqb_spec (selectedTokenSymbol ctx) (ETH TOKEN_SYMBOLS))
      as [E | _]; [contradiction |].
    destruct (reserveSelectedTokenETH ctx) as [i |]; [| reflexivity].
    destruct (reserveSelectedTokenToken ctx) as [o |]; [| reflexivity].
    unfold getExchangeRate.
    rewrite div_nonzero by congruence. cbn [bind].
    rewrite div_nonzero by lia. reflexivity.
Qed.

End EffectFacts.

(** ** The further properties on concrete pools *)

Lemma validateBuy_quote_bounds_witness :
  parseWholeUnits "1" 18 = Ok sampleBuyQuote.(BuyQuote.outputValue) /\
  0 < sampleBuyQuote.(BuyQuote.inputValue) < BN.MaxUint256 /\
  sampleBuyQuote.(BuyQuote.maximumInputValue)
    = Z.min (sampleBuyQuote.(BuyQuote.inputValue)
             + sampleBuyQuote.(BuyQuote.inputValue) / 50) BN.MaxUint256 /\
  sampleBuyQuote.(BuyQuote.inputValue)
    <= sampleBuyQuote.(BuyQuote.maximumInputValue).
Proof.
  apply (validateBuy_quote_bounds symbols parseWholeUnits sampleContext "1").
  vm_compute. reflexivity.
Defined.

Lemma validateSell_quote_bounds_witness :
  parseWholeUnits "1" 18 = Ok sampleSellQuote.(SellQuote.inputValue) /\
  0 < sampleSellQuote.(SellQuote.outputValue) < BN.MaxUint256 /\
  sampleSellQuote.(SellQuote.minimumOutputValue)
    = sampleSellQuote.(SellQuote.outputValue)
      - sampleSellQuote.(SellQuote.outputValue) / 50 /\
  0 <= sampleSellQuote.(SellQuote.minimumOutputValue)
    <= sampleSellQuote.(SellQuote.outputValue) /\
  sampleContext.(balanceETH) <> None /\
  sampleContext.(balanceSOCKS) <> None /\
  sampleContext.(allowanceSOCKS) <> None.
Proof.
  apply (validateSell_quote_bounds symbols parseWholeUnits sampleContext "1").
  vm_compute. reflexivity.
Defined.

Lemma validateBuy_clean_quote_witness :
  sampleBuyQuote.(BuyQuote.error) = None <->
  (forall b, sampleContext.(balanceETH) = Some b -> MIN_ETH_GAS <= b) /\
  (forall b, sampleContext.(balanceSelectedToken) = Some b ->
             sampleBuyQuote.(BuyQuote.maximumInputValue) <= b) /\
  (sampleContext.(selectedTokenSymbol) <> "ETH"%string ->
   forall a, sampleContext.(allowanceSelectedToken) = Some a ->
             sampleBuyQuote.(BuyQuote.maximumInputValue) <= a).
Proof.
  apply (validateBuy_clean_quote symbols parseWholeUnits sampleContext "1").
  vm_compute. reflexivity.
Defined.

Lemma validateSell_clean_quote_witness :
  sampleSellQuote.(SellQuote.error) = None <->
  MIN_ETH_GAS <= 50 * 10 ^ 18
  /\ sampleSellQuote.(SellQuote.inputValue) <= 10 * 10 ^ 18
  /\ sampleSellQuote.(SellQuote.inputValue) <= 10 * 10 ^ 18.
Proof.
  apply (validateSell_clean_quote symbols parseWholeUnits sampleContext "1");
    vm_compute; reflexivity.
Defined.

Lemma validateSell_zero_refused_witness :
  exists c,
    validateSell symbols parseWholeUnits sampleContext "0"
    = Throw (with_code INVALID_EXCHANGE c).
Proof.
  apply validateSell_zero_refused; [reflexivity | discriminate].
Defined.

Lemma validateBuy_zero_costs_one_witness :
  exists q,
    validateBuy symbols parseWholeUnits sampleContext "0" = Ok q /\
    q.(BuyQuote.inputValue) = 1 /\
    q.(BuyQuote.maximumInputValue) = 1 /\
    q.(BuyQuote.outputValue) = 0.
Proof.
  apply (validateBuy_zero_costs_one symbols parseWholeUnits sampleContext "0"
           (1000 * 10 ^ 18) (50 * 10 ^ 18)); try reflexivity. lia.
Defined.

Lemma calculateAmount_negative_buy_passes_witness :
  calculateAmount symbols "ETH" "SOCKS" (-1) (Some 1) (Some 1000000) None None
  = Ok 1.
Proof.
  apply (calculateAmount_negative_buy_passes symbols (-1) 1 1000000); lia.
Defined.

Lemma ready_rules_out_missing_data_witness :
  (forall e,
      validateSell symbols parseWholeUnits sampleContext "0" = Throw e ->
      e.(code) = Some INVALID_AMOUNT
      \/ (e.(code) = Some INVALID_EXCHANGE
          /\ (e.(cause) = PlainError \/ e.(cause) = DivisionByZero))) /\
  (forall e,
      validateBuy symbols parseWholeUnits sampleContext "0" = Throw e ->
      e.(code) = Some INVALID_AMOUNT
      \/ (e.(code) = Some INVALID_TRADE
          /\ (e.(cause) = PlainError \/ e.(cause) = DivisionByZero))).
Proof.
  apply (ready_rules_out_missing_data symbols parseWholeUnits
           sampleContext sampleRates "0"); reflexivity.
Defined.

Lemma exchangeRateEffect_eth_selected_witness :
  exchangeRateEffect symbols sampleContext sampleRates
  = {| USDExchangeRateETH :=
         Some (20000 * 10 ^ 18 * 10 ^ 18 / (100 * 10 ^ 18));
       USDExchangeRateSelectedToken := None |}.
Proof.
  apply (exchangeRateEffect_eth_selected symbols sampleContext sampleRates
           (100 * 10 ^ 18) (20000 * 10 ^ 18)); try reflexivity; lia.
Defined.

Lemma exchangeRateEffect_token_selected_witness :
  exchangeRateEffect symbols
    (daiContext (Some (100 * 10 ^ 18)) (Some (20000 * 10 ^ 18))
                (Some (100 * 10 ^ 18))) sampleRates
  = {| USDExchangeRateETH := Some (200 * 10 ^ 18);
       USDExchangeRateSelectedToken :=
         Some (20000 * 10 ^ 18 * 10 ^ 18 / (100 * 10 ^ 18) * 10 ^ 18
               / (20000 * 10 ^ 18 * 10 ^ 18 / (100 * 10 ^ 18))) |}.
Proof.
  apply (exchangeRateEffect_token_selected symbols
           (daiContext (Some (100 * 10 ^ 18)) (Some (20000 * 10 ^ 18))
                       (Some (100 * 10 ^ 18))) sampleRates
           (100 * 10 ^ 18) (20000 * 10 ^ 18)
           (100 * 10 ^ 18) (20000 * 10 ^ 18));
    try reflexivity; try lia. discriminate.
Defined.

Lemma exchangeRateEffect_truncated_rate_clears_witness :
  exchangeRateEffect symbols
    (daiContext (Some (2 * 10 ^ 18)) (Some 1) (Some (100 * 10 ^ 18)))
    sampleRates
  = {| USDExchangeRateETH := None; USDExchangeRateSelectedToken := None |}.
Proof.
  apply (exchangeRateEffect_truncated_rate_clears symbols
           (daiContext (Some (2 * 10 ^ 18)) (Some 1) (Some (100 * 10 ^ 18)))
           sampleRates (100 * 10 ^ 18) (20000 * 10 ^ 18) (2 * 10 ^ 18) 1);
    try reflexivity; try lia. discriminate.
Defined.

Lemma exchangeRateEffect_unloaded_witness :
  exchangeRateEffect symbols (poolContext None None None None) sampleRates
    = {| USDExchangeRateETH := None; USDExchangeRateSelectedToken := None |} /\
  exchangeRateEffect symbols (daiContext None None None) sampleRates
    = sampleRates.
Proof.
  split.
  - apply (proj1 (exchangeRateEffect_unloaded symbols
                    (poolContext None None None None) sampleRates
                    (or_introl eq_refl))).
    reflexivity.
  - apply (proj2 (exchangeRateEffect_unloaded symbols
                    (daiContext None None None) sampleRates
                    (or_introl eq_refl))); discriminate.
Defined.

(** ** Routed trades *)

Section RoutedTrades.

Variable TOKEN_SYMBOLS : TokenSymbols.

(** A trade against a token other than ETH and SOCKS is the direct trade
    against ETH followed by one more guarded quote on the token's pool, in
    both directions and failures included: the direct result is itself
    guarded before it enters the second quote, and the reserves of the
    token's pool play no part in the first leg. *)
Theorem routed_trade_composes
    (sel : string) (SOCKSAmount : Z) (r1 r2 r3 r4 u3 u4 : JsBN) :
  TOKEN_SYMBOLS.(ETH) <> TOKEN_SYMBOLS.(SOCKS) ->
  sel <> TOKEN_SYMBOLS.(ETH) ->
  sel <> TOKEN_SYMBOLS.(SOCKS) ->
  calculateAmount TOKEN_SYMBOLS sel TOKEN_SYMBOLS.(SOCKS) SOCKSAmount
    r1 r2 r3 r4
  = (eth <- calculateAmount TOKEN_SYMBOLS
              TOKEN_SYMBOLS.(ETH) TOKEN_SYMBOLS.(SOCKS) SOCKSAmount
              r1 r2 u3 u4 ;;
     amount <- calculateEtherTokenInputFromOutput eth r4 r3 ;;
     guardAmount amount)
  /\
  calculateAmount TOKEN_SYMBOLS TOKEN_SYMBOLS.(SOCKS) sel SOCKSAmount
    r1 r2 r3 r4
  = (eth <- calculateAmount TOKEN_SYMBOLS
              TOKEN_SYMBOLS.(SOCKS) TOKEN_SYMBOLS.(ETH) SOCKSAmount
              r1 r2 u3 u4 ;;
     amount <- calculateEtherTokenOutputFromInput eth r3 r4 ;;
     guardAmount amount).
Proof.
  intros Hdist HnE HnS. unfold calculateAmount.
  rewrite !String.eqb_refl.
  destruct (String.eqb_spec sel (ETH TOKEN_SYMBOLS)) as [E | _];
    [contradiction |].
  destruct (String.eqb_spec sel (SOCKS TOKEN_SYMBOLS)) as [E | _];
    [contradiction |].
  destruct (String.eqb_spec (SOCKS TOKEN_SYMBOLS) (ETH TOKEN_SYMBOLS))
    as [E | _]; [symmetry in E; contradiction |].
  cbn [andb]. split.
  - destruct (calculateEtherTokenInputFromOutput SOCKSAmount r1 r2)
      as [x | c]; cbn [bind]; [| reflexivity].
    destruct (guardAmount x); reflexivity.
  - destruct (calculateEtherTokenOutputFromInput SOCKSAmount r2 r1)
      as [x | c]; cbn [bind]; [| reflexivity].
    destruct (guardAmount x); reflexivity.
Qed.

End RoutedTrades.

Lemma routed_trade_composes_witness :
  calculateAmount symbols "DAI" "SOCKS" (10 ^ 18)
    (Some (1000 * 10 ^ 18)) (Some (50 * 10 ^ 18))
    (Some (100 * 10 ^ 18)) (Some (20000 * 10 ^ 18))
  = (eth <- calculateAmount symbols "ETH" "SOCKS" (10 ^ 18)
              (Some (1000 * 10 ^ 18)) (Some (50 * 10 ^ 18)) None None ;;
     amount <- calculateEtherTokenInputFromOutput eth
                 (Some (20000 * 10 ^ 18)) (Some (100 * 10 ^ 18)) ;;
     guardAmount amount)
  /\
  calculateAmount symbols "SOCKS" "DAI" (10 ^ 18)
    (Some (1000 * 10 ^ 18)) (Some (50 * 10 ^ 18))
    (Some (100 * 10 ^ 18)) (Some (20000 * 10 ^ 18))
  = (eth <- calculateAmount symbols "SOCKS" "ETH" (10 ^ 18)
              (Some (1000 * 10 ^ 18)) (Some (50 * 10 ^ 18)) None None ;;
     amount <- calculateEtherTokenOutputFromInput eth
                 (Some (100 * 10 ^ 18)) (Some (20000 * 10 ^ 18)) ;;
     guardAmount amount).
Proof.
  apply (routed_trade_composes symbols "DAI"); discriminate.
Defined.

Lemma exchangeRateEffect_clears_on_zero_reserve_witness :
  exchangeRateEffect symbols (poolContext None None None (Some 0)) sampleRates
  = {| USDExchangeRateETH := None; USDExchangeRateSelectedToken := None |}.
Proof.
  apply (exchangeRateEffect_clears_on_zero_reserve symbols
           (poolContext None None None (Some 0)) sampleRates
           (20000 * 10 ^ 18)); reflexivity.
Defined.
